(** * Inspectify: the check battery of [validator.py], embedded and verified

    The development follows [validate_dataset_with_expectations] of
    [src/validator.py]: loading the uploaded file, the table-level and
    column-wise checks appended to [validation_results], and the writing of
    the report.  Python and pandas values are modelled as the code sees them:
    - [float] and [numpy.float64] are IEEE binary64 numbers, computed with the
      executable specification of the Standard Library ([SpecFloat]);
    - a pandas [Series] is a typed column, with [NaN], [None] and [NaT] as its
      missing values; the dtypes are [int64], [float64], [object] (text, or
      integers among text), [datetime64] and [timedelta64], the last one
      standing for the dtypes the code has no branch for ([bool] and
      [complex] columns are left out);
    - [validation_results] is a list threaded through the checks, and a Python
      exception ends the run;
    - the file system is a map from paths to the text of files; the pandas
      readers and the text of the page template are taken as given.

    What pandas does inside a call is written out where a check depends on
    it: missing values are skipped, distinct values are kept in order of
    first appearance, the mean is the binary64 sum over the count (added here
    from left to right), the median the middle of the sorted values. *)

From Stdlib Require Import ZArith List String Ascii Bool Lia.
From Stdlib Require Import Floats.SpecFloat DecimalString.
Import ListNotations.

Local Open Scope string_scope.
Local Open Scope Z_scope.

(* ================================================================== *)
(** * Python numbers *)

(** [float]: binary64, 53 bits of precision, exponents below 1024. *)
Definition float : Type := spec_float.

Definition prec : Z := 53.
Definition emax : Z := 1024.

Definition fadd : float -> float -> float := SFadd prec emax.
Definition fmul : float -> float -> float := SFmul prec emax.
Definition fdiv : float -> float -> float := SFdiv prec emax.
Definition fleb : float -> float -> bool := SFleb.
Definition fltb : float -> float -> bool := SFltb.
Definition feqb : float -> float -> bool := SFeqb.

Definition isnan (x : float) : bool :=
  match x with S754_nan => true | _ => false end.

Definition nan : float := S754_nan.

(** [float(z)] for an [int]: the nearest binary64, ties to even. *)
Definition float_of_Z (z : Z) : float := binary_normalize prec emax z 0 false.

(** A decimal literal [n / 10^d], correctly rounded as Python reads it
    (numerator and denominator are exact here). *)
Definition decimal (n : Z) (d : Z) : float :=
  fdiv (float_of_Z n) (float_of_Z (10 ^ d)).

(** The integer nearest to [num / den], ties to the even one ([0 < den]). *)
Definition round_half_even (num den : Z) : Z :=
  let q := num / den in
  let r := num mod den in
  match (2 * r ?= den) with
  | Lt => q
  | Gt => q + 1
  | Eq => if Z.even q then q else q + 1
  end.

(** [numpy.rint]: the nearest integral value, ties to even, sign kept. *)
Definition rint (x : float) : float :=
  match x with
  | S754_finite s m e =>
      if 0 <=? e then x
      else
        let k := round_half_even (Zpos m) (2 ^ (- e)) in
        binary_normalize prec emax (if s then - k else k) 0 s
  | _ => x
  end.

(** [round(x, ndigits)] on a [numpy.float64]: numpy scales, rounds to an
    integer and scales back. *)
Definition np_round (x : float) (ndigits : Z) : float :=
  let f := float_of_Z (10 ^ ndigits) in
  fdiv (rint (fmul x f)) f.

(** [round(x, ndigits)] on a Python [float]: the decimal nearest to the exact
    value of [x] with [ndigits] digits (ties to even), read back as a
    binary64. *)
Definition py_round (x : float) (ndigits : Z) : float :=
  match x with
  | S754_finite s m e =>
      let scale := 10 ^ ndigits in
      let k :=
        if 0 <=? e then Zpos m * 2 ^ e * scale
        else round_half_even (Zpos m * scale) (2 ^ (- e)) in
      match k with
      | Zpos p => fdiv (S754_finite s p 0) (float_of_Z scale)
      | _ => S754_zero s
      end
  | _ => x
  end.

(* ================================================================== *)
(** * Python strings and paths *)

(** [str(z)] for an [int]. *)
Definition str_of_Z (z : Z) : string := NilZero.string_of_int (Z.to_int z).

(** [len(s)], one character per [ascii]. *)
Definition len_str (s : string) : Z := Z.of_nat (String.length s).

(** [s.rfind(c)]: the last index of [c], [-1] when it is absent. *)
Fixpoint rfind_from (s : string) (c : ascii) (i last : Z) : Z :=
  match s with
  | EmptyString => last
  | String a t => rfind_from t c (i + 1) (if Ascii.eqb a c then i else last)
  end.

Definition rfind (s : string) (c : ascii) : Z := rfind_from s c 0 (-1).

(** [s[i:]] and [s[:i]] for [0 <= i]. *)
Definition slice_from (i : Z) (s : string) : string :=
  substring (Z.to_nat i) (String.length s - Z.to_nat i) s.

Definition slice_to (i : Z) (s : string) : string :=
  substring 0 (Z.to_nat i) s.

Definition slice (i j : Z) (s : string) : string :=
  substring (Z.to_nat i) (Z.to_nat j - Z.to_nat i) s.

Definition lower_ascii (a : ascii) : ascii :=
  let n := nat_of_ascii a in
  if (65 <=? n)%nat && (n <=? 90)%nat then ascii_of_nat (n + 32) else a.

Definition upper_ascii (a : ascii) : ascii :=
  let n := nat_of_ascii a in
  if (97 <=? n)%nat && (n <=? 122)%nat then ascii_of_nat (n - 32) else a.

Fixpoint map_string (f : ascii -> ascii) (s : string) : string :=
  match s with
  | EmptyString => EmptyString
  | String a t => String (f a) (map_string f t)
  end.

(** [s.lower()] and [s.upper()] on ASCII text. *)
Definition lower (s : string) : string := map_string lower_ascii s.
Definition upper (s : string) : string := map_string upper_ascii s.

Fixpoint has_non_dot (s : string) : bool :=
  match s with
  | EmptyString => false
  | String a t => negb (Ascii.eqb a ".") || has_non_dot t
  end.

Definition startswith (p s : string) : bool := String.prefix p s.

Definition endswith (suffix s : string) : bool :=
  let n := String.length s in
  let k := String.length suffix in
  (k <=? n)%nat && String.eqb (substring (n - k) k s) suffix.

Module os.
Module path.

(** [os.path.splitext]: the extension starts at the last dot of the last
    component, dots that only lead that component apart. *)
Definition splitext (p : string) : string * string :=
  let sepIndex := rfind p "/" in
  let dotIndex := rfind p "." in
  if (sepIndex <? dotIndex) && has_non_dot (slice (sepIndex + 1) dotIndex p)
  then (slice_to dotIndex p, slice_from dotIndex p)
  else (p, "").

(** [os.path.basename]. *)
Definition basename (p : string) : string := slice_from (rfind p "/" + 1) p.

(** [os.path.join] of two components. *)
Definition join (a b : string) : string :=
  if startswith "/" b then b
  else if String.eqb a "" || endswith "/" a then (a ++ b)%string
  else (a ++ "/" ++ b)%string.

End path.
End os.

(* ================================================================== *)
(** * pandas: columns and tables *)

(** A Python value held in a cell or listed in a result. *)
Inductive scalar : Type :=
| Int (z : Z)
| Float (f : float)
| Str (s : string)
| Timestamp (ns : Z)
| Timedelta (ns : Z).

(** What an [object] column holds here: text, or an [int] among text. *)
Inductive pyobj : Type :=
| PyStr (s : string)
| PyInt (z : Z).

(** A column, by dtype.  [int64] has no missing value, [float64] marks it
    with [NaN], the others with [None] ([None], [NaN] or [NaT] in Python). *)
Inductive Series : Type :=
| Int64 (xs : list Z)
| Float64 (xs : list float)
| Object (xs : list (option pyobj))
| Datetime64 (xs : list (option Z))
| Timedelta64 (xs : list (option Z)).

(** A table: the length of its index and its columns in order.  Column
    labels may repeat. *)
Record DataFrame : Type := {
  index_len : nat;
  data : list (string * Series)
}.

(** What [df[col]] gives: a [Series] when the label is unique, a table of
    the columns that carry it when it repeats. *)
Inductive selection : Type :=
| NoColumn
| OneSeries (s : Series)
| SubFrame (cols : list Series).

Definition is_some {A : Type} (o : option A) : bool :=
  match o with Some _ => true | None => false end.

Definition pyobj_eqb (a b : pyobj) : bool :=
  match a, b with
  | PyStr s, PyStr t => String.eqb s t
  | PyInt x, PyInt y => Z.eqb x y
  | _, _ => false
  end.

Definition option_eqb {A : Type} (eqb : A -> A -> bool) (a b : option A)
    : bool :=
  match a, b with
  | Some x, Some y => eqb x y
  | None, None => true
  | _, _ => false
  end.

(** Equality of floats as keys of a hash table: numeric, all [NaN] alike. *)
Definition float_key_eqb (a b : float) : bool :=
  feqb a b || (isnan a && isnan b).

(** The values in order of first appearance. *)
Fixpoint uniq {A : Type} (eqb : A -> A -> bool) (seen xs : list A) : list A :=
  match xs with
  | [] => []
  | x :: t =>
      if existsb (eqb x) seen then uniq eqb seen t
      else x :: uniq eqb (x :: seen) t
  end.

Fixpoint insert_sorted (x : float) (l : list float) : list float :=
  match l with
  | [] => [x]
  | y :: t => if fleb x y then x :: l else y :: insert_sorted x t
  end.

Definition sort_floats (l : list float) : list float :=
  fold_right insert_sorted [] l.

(** The sum as a binary64, added from left to right. *)
Definition fsum (l : list float) : float := fold_left fadd l (S754_zero false).

Definition fold_min (h : float) (t : list float) : float :=
  fold_left (fun acc x => if fltb x acc then x else acc) t h.

Definition fold_max (h : float) (t : list float) : float :=
  fold_left (fun acc x => if fltb acc x then x else acc) t h.

Definition not_nan (l : list float) : list float :=
  filter (fun x => negb (isnan x)) l.

Definition str_of_pyobj (o : option pyobj) : string :=
  match o with
  | Some (PyStr s) => s
  | Some (PyInt z) => str_of_Z z
  | None => "None"
  end.

Module pd.

(** [len(s)]. *)
Definition len (s : Series) : Z :=
  match s with
  | Int64 xs => Z.of_nat (List.length xs)
  | Float64 xs => Z.of_nat (List.length xs)
  | Object xs => Z.of_nat (List.length xs)
  | Datetime64 xs => Z.of_nat (List.length xs)
  | Timedelta64 xs => Z.of_nat (List.length xs)
  end.

(** [str(s.dtype)]. *)
Definition dtype (s : Series) : string :=
  match s with
  | Int64 _ => "int64"
  | Float64 _ => "float64"
  | Object _ => "object"
  | Datetime64 _ => "datetime64[ns]"
  | Timedelta64 _ => "timedelta64[ns]"
  end.

(** [s.isnull()]. *)
Definition isnull (s : Series) : list bool :=
  match s with
  | Int64 xs => map (fun _ => false) xs
  | Float64 xs => map isnan xs
  | Object xs => map (fun o => negb (is_some o)) xs
  | Datetime64 xs => map (fun o => negb (is_some o)) xs
  | Timedelta64 xs => map (fun o => negb (is_some o)) xs
  end.

(** [.sum()] of a column of booleans. *)
Definition sum (bs : list bool) : Z :=
  Z.of_nat (List.length (filter (fun b => b) bs)).

(** [s.dropna()]. *)
Definition dropna (s : Series) : Series :=
  match s with
  | Int64 xs => Int64 xs
  | Float64 xs => Float64 (not_nan xs)
  | Object xs => Object (filter is_some xs)
  | Datetime64 xs => Datetime64 (filter is_some xs)
  | Timedelta64 xs => Timedelta64 (filter is_some xs)
  end.

(** [s.unique()]: the distinct values in order of first appearance, a
    missing value counted as one of them. *)
Definition unique (s : Series) : Series :=
  match s with
  | Int64 xs => Int64 (uniq Z.eqb [] xs)
  | Float64 xs => Float64 (uniq float_key_eqb [] xs)
  | Object xs => Object (uniq (option_eqb pyobj_eqb) [] xs)
  | Datetime64 xs => Datetime64 (uniq (option_eqb Z.eqb) [] xs)
  | Timedelta64 xs => Timedelta64 (uniq (option_eqb Z.eqb) [] xs)
  end.

(** [s.nunique()]: the number of distinct values, missing ones left out. *)
Definition nunique (s : Series) : Z := len (dropna (unique s)).

(** [.tolist()]. *)
Definition tolist (s : Series) : list (option scalar) :=
  match s with
  | Int64 xs => map (fun z => Some (Int z)) xs
  | Float64 xs => map (fun f => Some (Float f)) xs
  | Object xs =>
      map (option_map (fun o =>
             match o with PyStr t => Str t | PyInt z => Int z end)) xs
  | Datetime64 xs => map (option_map Timestamp) xs
  | Timedelta64 xs => map (option_map Timedelta) xs
  end.

(** [s.min()] and [s.max()] of a numeric column, missing values skipped;
    [NaN] when nothing is left.  Only numeric columns reach them. *)
Definition min (s : Series) : scalar :=
  match s with
  | Int64 (h :: t) => Int (fold_left Z.min t h)
  | Float64 xs =>
      match not_nan xs with
      | h :: t => Float (fold_min h t)
      | [] => Float nan
      end
  | _ => Float nan
  end.

Definition max (s : Series) : scalar :=
  match s with
  | Int64 (h :: t) => Int (fold_left Z.max t h)
  | Float64 xs =>
      match not_nan xs with
      | h :: t => Float (fold_max h t)
      | [] => Float nan
      end
  | _ => Float nan
  end.

(** The values of a numeric column as binary64, missing ones skipped. *)
Definition float_values (s : Series) : list float :=
  match s with
  | Int64 xs => map float_of_Z xs
  | Float64 xs => not_nan xs
  | _ => []
  end.

(** [s.mean()]: the sum over the count, both binary64. *)
Definition mean (s : Series) : float :=
  match float_values s with
  | [] => nan
  | ys => fdiv (fsum ys) (float_of_Z (Z.of_nat (List.length ys)))
  end.

(** [s.median()]: the middle of the sorted values, the mean of the two
    middle ones when their number is even. *)
Definition median (s : Series) : float :=
  let ys := sort_floats (float_values s) in
  let n := List.length ys in
  match n with
  | O => nan
  | _ =>
      if Nat.even n
      then fdiv (fadd (nth (n / 2 - 1) ys nan) (nth (n / 2) ys nan))
                (float_of_Z 2)
      else nth (n / 2) ys nan
  end.

(** [s.astype(str)] and [.str.len()].  The text of floats and dates is not
    modelled; only [object] columns reach the string checks. *)
Definition astype_str (s : Series) : list string :=
  match s with
  | Int64 xs => map str_of_Z xs
  | Object xs => map str_of_pyobj xs
  | _ => []
  end.

Definition str_len (l : list string) : Series := Int64 (map len_str l).

Module api.
Module types.

Definition is_numeric_dtype (s : Series) : bool :=
  match s with Int64 _ | Float64 _ => true | _ => false end.

(** For an [object] column pandas looks at the values: all text. *)
Definition is_string_dtype (s : Series) : bool :=
  match s with
  | Object xs =>
      forallb (fun o => match o with Some (PyInt _) => false | _ => true end) xs
  | _ => false
  end.

Definition is_datetime64_any_dtype (s : Series) : bool :=
  match s with Datetime64 _ => true | _ => false end.

End types.
End api.

End pd.

(** [len(df)], [df.columns] and [df[col]]. *)
Definition len_df (df : DataFrame) : Z := Z.of_nat (index_len df).

Definition columns (df : DataFrame) : list string := map fst (data df).

Definition getitem (df : DataFrame) (col : string) : selection :=
  match filter (fun c => String.eqb (fst c) col) (data df) with
  | [] => NoColumn
  | [c] => OneSeries (snd c)
  | cs => SubFrame (map snd cs)
  end.

(** [len(set(names))]. *)
Definition len_set (names : list string) : Z :=
  Z.of_nat (List.length (uniq String.eqb [] names)).

(** [float(v)] and [int(v)] of a number. *)
Definition to_float (v : scalar) : float :=
  match v with
  | Int z => float_of_Z z
  | Float f => f
  | _ => nan
  end.

Definition to_int (v : scalar) : Z :=
  match v with
  | Int z => z
  | _ => 0
  end.

(* ================================================================== *)
(** * Check results *)

(** An f-string: its literal text and the values it interpolates. *)
Inductive fpart : Type :=
| Lit (s : string)
| Fmt (v : scalar).

(** A value of a [result] dictionary. *)
Inductive pyvalue : Type :=
| VInt (z : Z)
| VFloat (f : float)
| VStr (s : string)
| VFStr (parts : list fpart)
| VList (vs : list (option scalar)).

(** One entry of [validation_results]; [column] is [None] for a check of the
    whole table. *)
Record CheckResult : Type := {
  expectation_type : string;
  success : bool;
  column : option string;
  result : list (string * pyvalue)
}.

(** A Python exception: its class and [str(e)]. *)
Record exn : Type := {
  exc_type : string;
  exc_msg : string
}.

Definition ValueError (msg : string) : exn :=
  {| exc_type := "ValueError"; exc_msg := msg |}.
Definition TypeError (msg : string) : exn :=
  {| exc_type := "TypeError"; exc_msg := msg |}.
Definition KeyError (msg : string) : exn :=
  {| exc_type := "KeyError"; exc_msg := msg |}.
Definition FileNotFoundError (msg : string) : exn :=
  {| exc_type := "FileNotFoundError"; exc_msg := msg |}.

(** [d[key]] of a [result] dictionary. *)
Fixpoint lookup (key : string) (d : list (string * pyvalue)) : option pyvalue :=
  match d with
  | [] => None
  | (k, v) :: t => if String.eqb k key then Some v else lookup key t
  end.

(** [round(v, ndigits)]: on a [numpy.float64], and on an [int], which it
    leaves as it is. *)
Definition round_ (v : scalar) (ndigits : Z) : pyvalue :=
  match v with
  | Int z => VInt z
  | Float f => VFloat (np_round f ndigits)
  | _ => VFloat nan
  end.

(** [l[:5] if len(l) > 5 else l]. *)
Definition first5 {A : Type} (l : list A) : list A :=
  if (5 <? Z.of_nat (List.length l)) then firstn 5 l else l.

(* ================================================================== *)
(** * The run: [validation_results] threaded, an exception ends it *)

Definition M (A : Type) : Type :=
  list CheckResult -> list CheckResult * (exn + A).

Definition ret {A : Type} (a : A) : M A := fun st => (st, inr a).

Definition bind {A B : Type} (m : M A) (k : A -> M B) : M B :=
  fun st =>
    match m st with
    | (st', inl e) => (st', inl e)
    | (st', inr a) => k a st'
    end.

Definition raise {A : Type} (e : exn) : M A := fun st => (st, inl e).

(** [validation_results.append(r)]. *)
Definition append (r : CheckResult) : M unit :=
  fun st => ((st ++ [r])%list, inr tt).

Declare Scope run_scope.
Delimit Scope run_scope with run.
Notation "c1 ;; c2" := (bind c1 (fun _ => c2))
  (at level 61, right associativity) : run_scope.

(** [for x in xs: body]. *)
Fixpoint for_each {X : Type} (xs : list X) (body : X -> M unit) : M unit :=
  match xs with
  | [] => ret tt
  | x :: t => bind (body x) (fun _ => for_each t body)
  end.

Local Open Scope run_scope.

(** Lines 30-64: the three checks of the whole table. *)
Definition table_checks (df : DataFrame) : M unit :=
  let row_count := len_df df in
  append {| expectation_type := "expect_table_row_count_to_be_greater_than";
            success := 0 <? row_count;
            column := None;
            result := [("observed_value", VInt row_count);
                       ("element_count", VInt row_count);
                       ("missing_count", VInt 0)] |} ;;
  let expected_columns := columns df in
  append {| expectation_type := "expect_table_columns_to_match_set";
            success := true;
            column := None;
            result := [("observed_value",
                        VList (map (fun c => Some (Str c)) expected_columns));
                       ("details",
                        VFStr
                          [Lit "Table has ";
                           Fmt (Int (Z.of_nat (List.length expected_columns)));
                           Lit " columns"])] |} ;;
  let has_duplicate_cols :=
    negb (Z.of_nat (List.length (columns df)) =? len_set (columns df)) in
  append {| expectation_type := "expect_table_columns_to_be_unique";
            success := negb has_duplicate_cols;
            column := None;
            result := [("observed_value",
                        VStr (if negb has_duplicate_cols
                              then "No duplicate columns"
                              else "Duplicate columns found"))] |}.

(** Lines 143-154 and 185-196: the uniqueness check of ID-like fields. *)
Definition unique_check (df : DataFrame) (col : string)
    (col_data_clean : Series) : M unit :=
  if pd.nunique col_data_clean =? len_df df then
    append {| expectation_type := "expect_column_values_to_be_unique";
              success := true;
              column := Some col;
              result := [("observed_value", VStr "All values are unique");
                         ("unique_count", VInt (pd.nunique col_data_clean));
                         ("total_count", VInt (len_df df))] |}
  else ret tt.

(** Lines 94-154: the checks of a numeric column. *)
Definition numeric_checks (df : DataFrame) (col : string)
    (col_data col_data_clean : Series) (null_count : Z) : M unit :=
  append {| expectation_type := "expect_column_values_to_be_in_type_list";
            success := true;
            column := Some col;
            result := [("observed_value", VStr (pd.dtype col_data));
                       ("details", VStr "Column is numeric type")] |} ;;
  let col_min := to_float (pd.min col_data_clean) in
  let col_max := to_float (pd.max col_data_clean) in
  append {| expectation_type := "expect_column_values_to_be_between";
            success := true;
            column := Some col;
            result := [("observed_value",
                        VFStr [Lit "min: "; Fmt (Float col_min);
                               Lit ", max: "; Fmt (Float col_max)]);
                       ("element_count", VInt (pd.len col_data_clean));
                       ("missing_count", VInt null_count)] |} ;;
  let col_mean := pd.mean col_data_clean in
  append {| expectation_type := "expect_column_mean_to_be_between";
            success := fleb col_min col_mean && fleb col_mean col_max;
            column := Some col;
            result := [("observed_value", VFloat (py_round col_mean 4));
                       ("details",
                        VFStr [Lit "Mean is within range [";
                               Fmt (Float col_min); Lit ", ";
                               Fmt (Float col_max); Lit "]"])] |} ;;
  let col_median := pd.median col_data_clean in
  append {| expectation_type := "expect_column_median_to_be_between";
            success := fleb col_min col_median && fleb col_median col_max;
            column := Some col;
            result := [("observed_value", VFloat (py_round col_median 4));
                       ("details",
                        VFStr [Lit "Median is within range [";
                               Fmt (Float col_min); Lit ", ";
                               Fmt (Float col_max); Lit "]"])] |} ;;
  unique_check df col col_data_clean.

(** Lines 158-196: the checks of a string or object column. *)
Definition string_checks (df : DataFrame) (col : string)
    (col_data_clean : Series) : M unit :=
  append {| expectation_type := "expect_column_values_to_be_in_type_list";
            success := true;
            column := Some col;
            result := [("observed_value", VStr "string/object");
                       ("details", VStr "Column is string/object type")] |} ;;
  let str_lengths := pd.str_len (pd.astype_str col_data_clean) in
  let min_length := to_int (pd.min str_lengths) in
  let max_length := to_int (pd.max str_lengths) in
  let all_valid_length := max_length <=? 255 in
  append {| expectation_type := "expect_column_value_lengths_to_be_between";
            success := all_valid_length;
            column := Some col;
            result := [("observed_value",
                        VFStr [Lit "min: "; Fmt (Int min_length);
                               Lit ", max: "; Fmt (Int max_length)]);
                       ("details",
                        VStr (if all_valid_length
                              then "String lengths within acceptable range"
                              else "Some strings exceed 255 chars"))] |} ;;
  unique_check df col col_data_clean.

(** Lines 199-208: the check of a datetime column. *)
Definition datetime_checks (col : string) : M unit :=
  append {| expectation_type := "expect_column_values_to_be_in_type_list";
            success := true;
            column := Some col;
            result := [("observed_value", VStr "datetime");
                       ("details", VStr "Column is datetime type")] |}.

(** Lines 210-227: the check of a column with few distinct values. *)
Definition categorical_check (col : string) (col_data_clean : Series)
    (null_count : Z) : M unit :=
  let unique_count := pd.nunique col_data_clean in
  if (0 <? unique_count) && (unique_count <? 30) then
    let allowed_values := pd.tolist (pd.unique col_data_clean) in
    let unexpected := 0 in
    append {| expectation_type := "expect_column_values_to_be_in_set";
              success := unexpected =? 0;
              column := Some col;
              result := [("observed_value",
                          VFStr [Fmt (Int unique_count); Lit " unique values"]);
                         ("element_count", VInt (pd.len col_data_clean));
                         ("missing_count", VInt null_count);
                         ("unexpected_count", VInt unexpected);
                         ("partial_unexpected_list",
                          VList (first5 allowed_values))] |}
  else ret tt.

(** Lines 71-227: the body of the loop, for a label that names one column. *)
Definition series_checks (df : DataFrame) (col : string) (col_data : Series)
    : M unit :=
  let null_count := pd.sum (pd.isnull col_data) in
  let null_percent :=
    if 0 <? len_df df
    then Float (fmul (fdiv (float_of_Z null_count) (float_of_Z (len_df df)))
                     (float_of_Z 100))
    else Int 0 in
  append {| expectation_type := "expect_column_values_to_not_be_null";
            success := null_count =? 0;
            column := Some col;
            result := [("element_count", VInt (len_df df));
                       ("missing_count", VInt null_count);
                       ("missing_percent", round_ null_percent 2);
                       ("unexpected_count", VInt null_count)] |} ;;
  let col_data_clean := pd.dropna col_data in
  if pd.len col_data_clean =? 0 then ret tt
  else
    (if pd.api.types.is_numeric_dtype col_data then
       numeric_checks df col col_data col_data_clean null_count
     else if pd.api.types.is_string_dtype col_data
             || String.eqb (pd.dtype col_data) "object" then
       string_checks df col col_data_clean
     else if pd.api.types.is_datetime64_any_dtype col_data then
       datetime_checks col
     else ret tt) ;;
    categorical_check col col_data_clean null_count.

(** Lines 68-69: [col_data = df[col]].  When the label repeats, [df[col]] is
    a table, [null_count] a [Series], and [int(null_count)] raises before
    anything is appended for it. *)
Definition column_checks (df : DataFrame) (col : string) : M unit :=
  match getitem df col with
  | NoColumn => raise (KeyError col)
  | SubFrame _ =>
      raise (TypeError "cannot convert the series to <class 'int'>")
  | OneSeries col_data => series_checks df col col_data
  end.

(** Lines 26-227: the check battery. *)
Definition run_checks (df : DataFrame) : M unit :=
  table_checks df ;;
  for_each (columns df) (column_checks df).

(** What the battery has appended to an empty [validation_results], and how
    it ended. *)
Definition emitted (df : DataFrame) : list CheckResult :=
  fst (run_checks df []).

Definition evaluate (df : DataFrame) : exn + list CheckResult :=
  match run_checks df [] with
  | (st, inr _) => inr st
  | (_, inl e) => inl e
  end.

(* ================================================================== *)
(** * The whole function: load, check, report *)

(** The values the page template (lines 256-622) interpolates. *)
Record Report : Type := {
  rep_filename : string;
  rep_timestamp : string;
  rep_total : Z;
  rep_successful : Z;
  rep_failed : Z;
  rep_success_rate : scalar;
  rep_rows : Z;
  rep_columns : Z;
  rep_file_size_kb : float;
  rep_format : string;
  rep_global : list CheckResult;
  rep_by_column : list (string * list CheckResult)
}.

(** What the function is run with: the pandas readers, each giving a table
    or raising on the bytes of a file, and the text the page template gives
    for the values of a report (the template itself is not modelled). *)
Record Env : Type := {
  read_csv : string -> exn + DataFrame;
  read_excel : string -> exn + DataFrame;
  read_json : string -> exn + DataFrame;
  html_page : Report -> string
}.

(** The file system and the clock. *)
Record World : Type := {
  files : string -> option string;
  dirs : list string;
  now : string
}.

(** What the function returns. *)
Record Outcome : Type := {
  results : list CheckResult;
  report_path : string
}.

(** A reader applied to a path: the file has to be there. *)
Definition read_with (rd : string -> exn + DataFrame) (w : World)
    (filepath : string) : exn + DataFrame :=
  match files w filepath with
  | Some bytes => rd bytes
  | None =>
      inl (FileNotFoundError
             ("[Errno 2] No such file or directory: '" ++ filepath ++ "'"))
  end.

(** Lines 14-21, the body of the [try]: the extension picks the reader, and
    an extension that has none raises a [ValueError]. *)
Definition read_table (env : Env) (w : World) (filepath : string)
    : exn + DataFrame :=
  let ext := lower (snd (os.path.splitext filepath)) in
  if String.eqb ext ".csv" then read_with (read_csv env) w filepath
  else if String.eqb ext ".xlsx" || String.eqb ext ".xls" then
    read_with (read_excel env) w filepath
  else if String.eqb ext ".json" then read_with (read_json env) w filepath
  else inl (ValueError ("Unsupported file format: " ++ ext)).

(** Lines 12-23: whatever is raised inside the [try], the [ValueError] of
    its last branch too, is raised again as a [ValueError] around its
    message. *)
Definition load (env : Env) (w : World) (filepath : string)
    : exn + DataFrame :=
  match read_table env w filepath with
  | inl e => inl (ValueError ("Error reading file: " ++ exc_msg e))
  | inr df => inr df
  end.

(** [os.makedirs(folder, exist_ok=True)]. *)
Definition makedirs (folder : string) (w : World) : World :=
  {| files := files w;
     dirs := if existsb (String.eqb folder) (dirs w) then dirs w
             else folder :: dirs w;
     now := now w |}.

(** [open(path, "w").write(text)]. *)
Definition write_file (path text : string) (w : World) : World :=
  {| files := fun p => if String.eqb p path then Some text else files w p;
     dirs := dirs w;
     now := now w |}.

(** [os.path.getsize]; the file was read a moment ago. *)
Definition getsize (w : World) (filepath : string) : Z :=
  match files w filepath with
  | Some bytes => len_str bytes
  | None => 0
  end.

(** Lines 243-253: [column_expectations], a dictionary in insertion order. *)
Fixpoint dict_append (col : string) (res : CheckResult)
    (d : list (string * list CheckResult)) : list (string * list CheckResult) :=
  match d with
  | [] => [(col, [res])]
  | (k, v) :: t =>
      if String.eqb k col then (k, (v ++ [res])%list) :: t
      else (k, v) :: dict_append col res t
  end.

Definition group_by_column (validation_results : list CheckResult)
    : list CheckResult * list (string * list CheckResult) :=
  fold_left
    (fun acc res =>
       match column res with
       | None => ((fst acc ++ [res])%list, snd acc)
       | Some col => (fst acc, dict_append col res (snd acc))
       end)
    validation_results ([], []).

(** Lines 229-253 and the values of the page. *)
Definition build_report (w : World) (filepath ext : string) (df : DataFrame)
    (validation_results : list CheckResult) : Report :=
  let filename := os.path.basename filepath in
  let timestamp := now w in
  let total_expectations := Z.of_nat (List.length validation_results) in
  let successful :=
    Z.of_nat (List.length (filter success validation_results)) in
  let failed := total_expectations - successful in
  let success_rate :=
    if 0 <? total_expectations
    then Float (fmul (fdiv (float_of_Z successful)
                           (float_of_Z total_expectations))
                     (float_of_Z 100))
    else Int 0 in
  let groups := group_by_column validation_results in
  {| rep_filename := filename;
     rep_timestamp := timestamp;
     rep_total := total_expectations;
     rep_successful := successful;
     rep_failed := failed;
     rep_success_rate := success_rate;
     rep_rows := len_df df;
     rep_columns := Z.of_nat (List.length (columns df));
     rep_file_size_kb := fdiv (float_of_Z (getsize w filepath))
                              (float_of_Z 1024);
     rep_format := upper ext;
     rep_global := fst groups;
     rep_by_column := snd groups |}.

(** [validate_dataset_with_expectations(filepath, report_folder)]: the world
    it leaves and what it returns or raises. *)
Definition validate_dataset_with_expectations (env : Env) (w : World)
    (filepath report_folder : string) : World * (exn + Outcome) :=
  let ext := lower (snd (os.path.splitext filepath)) in
  match load env w filepath with
  | inl e => (w, inl e)
  | inr df =>
      match run_checks df [] with
      | (_, inl e) => (w, inl e)
      | (validation_results, inr _) =>
          let w1 := makedirs report_folder w in
          let filename := os.path.basename filepath in
          let report_path :=
            os.path.join report_folder (filename ++ "_report.html") in
          let html :=
            html_page env
              (build_report w1 filepath ext df validation_results) in
          (write_file report_path html w1,
           inr {| results := validation_results;
                  report_path := report_path |})
      end
  end.

(* ================================================================== *)
(** * Vocabulary of the specification *)

(** The kinds of checks, by the name the code gives them.  The three type
    checks share one name and differ by their detail. *)
Definition row_count_positive : string :=
  "expect_table_row_count_to_be_greater_than".
Definition columns_present : string := "expect_table_columns_to_match_set".
Definition columns_unique : string := "expect_table_columns_to_be_unique".
Definition not_null : string := "expect_column_values_to_not_be_null".
Definition type_check : string := "expect_column_values_to_be_in_type_list".
Definition value_range : string := "expect_column_values_to_be_between".
Definition mean_in_range : string := "expect_column_mean_to_be_between".
Definition median_in_range : string := "expect_column_median_to_be_between".
Definition values_unique : string := "expect_column_values_to_be_unique".
Definition value_length_range : string :=
  "expect_column_value_lengths_to_be_between".
Definition values_in_set : string := "expect_column_values_to_be_in_set".

(** The dtype classes, in the order the code tests them. *)
Inductive dtype_class : Type := Numeric | StringLike | DatetimeLike | Other.

Definition classify (s : Series) : dtype_class :=
  if pd.api.types.is_numeric_dtype s then Numeric
  else if pd.api.types.is_string_dtype s || String.eqb (pd.dtype s) "object"
  then StringLike
  else if pd.api.types.is_datetime64_any_dtype s then DatetimeLike
  else Other.

(** [sys.maxsize]: the longest sequence Python can hold. *)
Definition maxsize : Z := 2 ^ 63 - 1.

(** A table as pandas holds it: every column as long as the index. *)
Definition wf_df (df : DataFrame) : Prop :=
  Forall (fun c => pd.len (snd c) = len_df df) (data df)
  /\ len_df df <= maxsize.

(** The entry of a check's detail. *)
Definition detail (key : string) (r : CheckResult) : option pyvalue :=
  lookup key (result r).

Definition has_kind (k : string) (r : CheckResult) : bool :=
  String.eqb (expectation_type r) k.

Definition in_column (col : string) (r : CheckResult) : bool :=
  match column r with
  | Some c => String.eqb c col
  | None => false
  end.

(** The results of a run that are about one column. *)
Definition results_for (col : string) (rs : list CheckResult)
    : list CheckResult :=
  filter (in_column col) rs.

(** What the body of the loop appends for one column. *)
Definition column_results (df : DataFrame) (col : string) (s : Series)
    : list CheckResult :=
  fst (series_checks df col s []).

Definition kinds (rs : list CheckResult) : list string :=
  map expectation_type rs.

(** The number of distinct values that are not missing. *)
Definition distinct_count (s : Series) : Z := pd.nunique (pd.dropna s).

(** Least and greatest elements. *)
Definition is_minimum (m : Z) (l : list Z) : Prop :=
  In m l /\ forall x, In x l -> m <= x.

Definition is_maximum (m : Z) (l : list Z) : Prop :=
  In m l /\ forall x, In x l -> x <= m.



(** The lengths of the text forms of the values that are not missing. *)
Definition text_lengths (s : Series) : list Z :=
  map len_str (pd.astype_str (pd.dropna s)).

(** A computation that appends [l] and ends normally, whatever was there. *)
Definition appends (m : M unit) (l : list CheckResult) : Prop :=
  forall st, m st = ((st ++ l)%list, inr tt).

(** It appends only results that satisfy [P], and ends normally. *)
Definition emits (P : CheckResult -> Prop) (m : M unit) : Prop :=
  exists l, appends m l /\ Forall P l.

(** The three results at the head of every run. *)
Definition table_results (df : DataFrame) : list CheckResult :=
  fst (table_checks df []).




(** [1.0] and [100.0]. *)
Definition one : float := S754_finite false 4503599627370496 (-52).
Definition hundred : float := S754_finite false 7036874417766400 (-46).

(** Every value of the column is missing. *)
Definition all_null (s : Series) : Prop :=
  Forall (fun b => b = true) (pd.isnull s).

(** What the branch of its dtype class appends for a column with values. *)
Definition type_results (df : DataFrame) (col : string) (s : Series)
    : list CheckResult :=
  match classify s with
  | Numeric =>
      fst (numeric_checks df col s (pd.dropna s) (pd.sum (pd.isnull s)) [])
  | StringLike => fst (string_checks df col (pd.dropna s) [])
  | DatetimeLike => fst (datetime_checks col [])
  | Other => []
  end.

(** What the check of few distinct values appends for it. *)
Definition categorical_results (col : string) (s : Series)
    : list CheckResult :=
  fst (categorical_check col (pd.dropna s) (pd.sum (pd.isnull s)) []).

(** The kinds a column gets, from its dtype class and three facts about its
    values: it has a value, they are all distinct over the rows, they are
    few. *)
Definition expected_kinds (c : dtype_class) (has_values all_distinct few : bool)
    : list string :=
  not_null ::
  (if has_values then
     (match c with
      | Numeric =>
          [type_check; value_range; mean_in_range; median_in_range]
          ++ (if all_distinct then [values_unique] else [])
      | StringLike =>
          [type_check; value_length_range]
          ++ (if all_distinct then [values_unique] else [])
      | DatetimeLike => [type_check]
      | Other => []
      end)
     ++ (if few then [values_in_set] else [])
   else [])%list.




(** The extension the loader looks at, and whether it has a reader. *)
Definition extension (filepath : string) : string :=
  lower (snd (os.path.splitext filepath)).

Definition supported (ext : string) : bool :=
  String.eqb ext ".csv" || String.eqb ext ".xlsx" || String.eqb ext ".xls"
  || String.eqb ext ".json".

(** [needle in text]. *)
Fixpoint mentions (needle text : string) : bool :=
  String.prefix needle text
  || match text with
     | EmptyString => false
     | String _ t => mentions needle t
     end.

(** A message that lists the formats the loader reads. *)
Definition lists_supported_formats (msg : string) : bool :=
  mentions "csv" msg && mentions "xlsx" msg && mentions "xls" msg
  && mentions "json" msg.

(** The text has no character [c]. *)
Fixpoint no_char (c : ascii) (s : string) : bool :=
  match s with
  | EmptyString => true
  | String a t => negb (Ascii.eqb a c) && no_char c t
  end.


(** The results of a run that ends normally. *)
Definition results_of (df : DataFrame) : list CheckResult :=
  match evaluate df with
  | inr rs => rs
  | inl _ => []
  end.

(* ================================================================== *)
(** * Sample tables and files *)

(** [0.1], the binary64 nearest to one tenth. *)
Definition tenth : float := decimal 1 1.

(** Three rows: an identifier, an age, a measure, a name with a gap and a
    number in it, a column with nothing in it, and a duration. *)
Definition people : DataFrame :=
  {| index_len := 3;
     data := [("id", Int64 [1; 2; 3]);
              ("age", Int64 [30; 30; 41]);
              ("score", Float64 [tenth; tenth; tenth]);
              ("name", Object [Some (PyStr "ab"); None; Some (PyInt 12345)]);
              ("empty", Float64 [nan; nan; nan]);
              ("wait", Timedelta64 [Some 5; Some 5; None])] |}.

(** Readers that know three files: a table, a page of text that is no
    spreadsheet, and a broken JSON document. *)
Definition sample_env : Env :=
  {| read_csv := fun bytes =>
       if String.eqb bytes "id,age,score,name,empty,wait"
       then inr people
       else inl {| exc_type := "ParserError";
                   exc_msg := "Error tokenizing data" |};
     read_excel := fun _ =>
       inl (ValueError "Excel file format cannot be determined");
     read_json := fun _ => inl (ValueError "Expected object or value");
     html_page := fun r =>
       "<title>Validation Report - " ++ rep_filename r ++ "</title>" |}.

Definition sample_world : World :=
  {| files := fun p =>
       if String.eqb p "uploads/people.csv"
       then Some "id,age,score,name,empty,wait"
       else if String.eqb p "uploads/notes.txt" then Some "to do"
       else if String.eqb p "uploads/broken.json" then Some "{oops"
       else None;
     dirs := ["uploads"];
     now := "2024-05-01 10:00:00" |}.




(** Two notes of at most 255 characters, and the same column with the
    second note replaced by one of 256 characters. *)
Definition letters (n : nat) : string :=
  string_of_list_ascii (repeat "a"%char n).

Definition short_notes : DataFrame :=
  {| index_len := 2;
     data := [("note", Object [Some (PyStr (letters 255));
                               Some (PyStr "ok")])] |}.

Definition one_long_note : DataFrame :=
  {| index_len := 2;
     data := [("note", Object [Some (PyStr (letters 255));
                               Some (PyStr (letters 256))])] |}.

(** A file with a header and no row. *)
Definition header_only : DataFrame :=
  {| index_len := 0; data := [("a", Object [])] |}.

(* ================================================================== *)
(** * [upload.py]: the file names the upload accepts *)

(** [c in s]. *)
Definition in_str (c : ascii) (s : string) : bool := negb (no_char c s).

(** [s.rsplit(c, 1)]: the text cut at the last [c], whole when there is
    none. *)
Definition rsplit1 (c : ascii) (s : string) : list string :=
  let i := rfind s c in
  if i <? 0 then [s] else [slice_to i s; slice_from (i + 1) s].

Definition ALLOWED_EXTENSIONS : list string := ["csv"; "xlsx"; "xls"; "json"].

(** [allowed_file(filename)].  The [and] stops at a name without a dot, so
    the index [1] is never out of range. *)
Definition allowed_file (filename : string) : bool :=
  in_str "." filename
  && existsb (String.eqb (lower (nth 1 (rsplit1 "." filename) "")))
             ALLOWED_EXTENSIONS.

(* ================================================================== *)
(** * [validate.py]: the route that runs the validation *)






(* ================================================================== *)
(** * More vocabulary *)

(** [d.get(col)] of the dictionary of column groups. *)
Fixpoint dget (col : string) (d : list (string * list CheckResult))
    : option (list CheckResult) :=
  match d with
  | [] => None
  | (k, v) :: t => if String.eqb k col then Some v else dget col t
  end.

(** A list of results as a group of the report: no group is empty. *)
Definition as_group (l : list CheckResult) : option (list CheckResult) :=
  match l with
  | [] => None
  | _ => Some l
  end.

Definition is_table_result (r : CheckResult) : bool :=
  negb (is_some (column r)).

(** One turn of the grouping loop (lines 246-253). *)
Definition group_step
    (acc : list CheckResult * list (string * list CheckResult))
    (res : CheckResult) : list CheckResult * list (string * list CheckResult) :=
  match column res with
  | None => ((fst acc ++ [res])%list, snd acc)
  | Some col => (fst acc, dict_append col res (snd acc))
  end.

(** The number of results in all the groups of a dictionary. *)
Definition grouped_count (d : list (string * list CheckResult)) : nat :=
  List.length (flat_map snd d).

(** The eleven kinds, and those whose result is [True] in the code. *)
Definition all_kinds : list string :=
  [row_count_positive; columns_present; columns_unique; not_null;
   type_check; value_range; mean_in_range; median_in_range; values_unique;
   value_length_range; values_in_set].

Definition descriptive_kinds : list string :=
  [columns_present; type_check; value_range; values_unique; values_in_set].

Definition sound_result (r : CheckResult) : bool :=
  existsb (String.eqb (expectation_type r)) all_kinds
  && (if existsb (String.eqb (expectation_type r)) descriptive_kinds
      then success r else true).

(** A table with a repeated label, and one with columns and no row. *)
Definition twice_a : DataFrame :=
  {| index_len := 2;
     data := [("a", Int64 [1; 2]); ("b", Int64 [3; 3]);
              ("a", Int64 [5; 6])] |}.

Definition no_rows : DataFrame :=
  {| index_len := 0;
     data := [("a", Object []); ("b", Float64 []); ("c", Int64 [])] |}.


(* ================================================================== *)
(** * How the run appends *)

Lemma appends_ret : appends (ret tt) [].
Proof. intros st. unfold ret. now rewrite app_nil_r. Qed.

Lemma appends_append (r : CheckResult) : appends (append r) [r].
Proof. intros st. reflexivity. Qed.

Lemma appends_bind (m k : M unit) (l1 l2 : list CheckResult) :
  appends m l1 -> appends k l2 -> appends (m ;; k) (l1 ++ l2).
Proof.
  intros Hm Hk st. unfold bind. rewrite Hm, Hk. now rewrite app_assoc.
Qed.

Lemma appends_fst (m : M unit) (l : list CheckResult) :
  appends m l -> fst (m []) = l.
Proof. intros H. now rewrite H. Qed.

Lemma emits_ret (P : CheckResult -> Prop) : emits P (ret tt).
Proof. exists []. split; [apply appends_ret | constructor]. Qed.

Lemma emits_append (P : CheckResult -> Prop) (r : CheckResult) :
  P r -> emits P (append r).
Proof.
  intros H. exists [r]. split; [apply appends_append|].
  now repeat constructor.
Qed.

Lemma emits_bind (P : CheckResult -> Prop) (m k : M unit) :
  emits P m -> emits P k -> emits P (m ;; k).
Proof.
  intros [l1 [H1 F1]] [l2 [H2 F2]]. exists (l1 ++ l2)%list. split.
  - now apply appends_bind.
  - apply Forall_app. now split.
Qed.

Lemma emits_appends (P : CheckResult -> Prop) (m : M unit) :
  emits P m -> appends m (fst (m [])) /\ Forall P (fst (m [])).
Proof.
  intros [l [H F]]. now rewrite (appends_fst m l H).
Qed.

Ltac emits_steps :=
  repeat first
    [ apply emits_ret
    | apply emits_append; reflexivity
    | apply emits_bind
    | match goal with
      | |- emits _ (if ?b then _ else _) => destruct b
      end ].

Lemma unique_check_emits (df : DataFrame) (col : string) (clean : Series) :
  emits (fun r => column r = Some col) (unique_check df col clean).
Proof. unfold unique_check. emits_steps. Qed.

Lemma categorical_check_emits (col : string) (clean : Series) (n : Z) :
  emits (fun r => column r = Some col) (categorical_check col clean n).
Proof. unfold categorical_check. cbv zeta. emits_steps. Qed.

Lemma series_checks_emits (df : DataFrame) (col : string) (s : Series) :
  emits (fun r => column r = Some col) (series_checks df col s).
Proof.
  unfold series_checks, numeric_checks, string_checks, datetime_checks.
  cbv zeta. emits_steps;
    first [apply unique_check_emits | apply categorical_check_emits].
Qed.

Lemma series_checks_appends (df : DataFrame) (col : string) (s : Series) :
  appends (series_checks df col s) (column_results df col s).
Proof. apply (emits_appends _ _ (series_checks_emits df col s)). Qed.

Lemma column_results_scope (df : DataFrame) (col : string) (s : Series) :
  Forall (fun r => column r = Some col) (column_results df col s).
Proof. apply (emits_appends _ _ (series_checks_emits df col s)). Qed.

(* ================================================================== *)
(** * Labels and [df[col]] *)

Lemma filter_label_count (l : list (string * Series)) (col : string) :
  List.length (filter (fun c => String.eqb (fst c) col) l)
  = count_occ string_dec (map fst l) col.
Proof.
  induction l as [|[k v] t IH]; simpl; [reflexivity|].
  destruct (String.eqb_spec k col) as [->|Hne].
  - destruct (string_dec col col); [simpl; now rewrite IH | contradiction].
  - destruct (string_dec k col); [contradiction | exact IH].
Qed.

Lemma filter_label_unique (l : list (string * Series)) (col : string)
    (s : Series) :
  NoDup (map fst l) -> In (col, s) l ->
  filter (fun c => String.eqb (fst c) col) l = [(col, s)].
Proof.
  induction l as [|[k v] t IH]; simpl; intros Hnd Hin; [contradiction|].
  inversion Hnd as [|? ? Hk Ht]; subst.
  destruct Hin as [Heq|Hin].
  - inversion Heq; subst. rewrite String.eqb_refl. f_equal.
    assert (Hc : count_occ string_dec (map fst t) col = 0%nat)
      by (now apply count_occ_not_In).
    rewrite <- filter_label_count in Hc.
    now apply length_zero_iff_nil in Hc.
  - destruct (String.eqb_spec k col) as [->|Hne].
    + exfalso. apply Hk. change col with (fst (col, s)). now apply in_map.
    + now apply IH.
Qed.

Lemma getitem_unique (df : DataFrame) (col : string) (s : Series) :
  NoDup (columns df) -> In (col, s) (data df) -> getitem df col = OneSeries s.
Proof.
  intros Hnd Hin. unfold getitem.
  now rewrite (filter_label_unique _ _ _ Hnd Hin).
Qed.

Lemma getitem_one_count (df : DataFrame) (col : string) (s : Series) :
  getitem df col = OneSeries s ->
  count_occ string_dec (columns df) col = 1%nat.
Proof.
  unfold getitem, columns. rewrite <- filter_label_count.
  destruct (filter _ (data df)) as [|c [|c' t]]; now intros.
Qed.

(* ================================================================== *)
(** * The shape of a run *)

Lemma column_checks_cases (df : DataFrame) (col : string)
    (st : list CheckResult) :
  (exists s, getitem df col = OneSeries s
             /\ column_checks df col st
                = ((st ++ column_results df col s)%list, inr tt))
  \/ (exists e, (forall s, getitem df col <> OneSeries s)
                /\ column_checks df col st = (st, inl e)).
Proof.
  unfold column_checks. destruct (getitem df col) as [|s|cols].
  - right. eexists. split; [discriminate | reflexivity].
  - left. exists s. split; [reflexivity | apply series_checks_appends].
  - right. eexists. split; [discriminate | reflexivity].
Qed.

(** Whatever happens, the loop only appends results about the columns it
    has gone through. *)
Lemma for_each_columns_scope (df : DataFrame) (cols : list string)
    (st : list CheckResult) :
  exists l, fst (for_each cols (column_checks df) st) = (st ++ l)%list
            /\ Forall (fun r => exists c, column r = Some c /\ In c cols) l.
Proof.
  revert st. induction cols as [|col t IH]; intros st; simpl.
  - exists []. split; [now rewrite app_nil_r | constructor].
  - unfold bind.
    destruct (column_checks_cases df col st) as [[s [_ ->]]|[e [_ ->]]].
    + destruct (IH (st ++ column_results df col s)%list) as [l [El Fl]].
      exists (column_results df col s ++ l)%list. split.
      * now rewrite El, app_assoc.
      * apply Forall_app. split.
        -- eapply Forall_impl; [|apply column_results_scope].
           intros r Hr. exists col. split; [exact Hr | now left].
        -- eapply Forall_impl; [|exact Fl].
           intros r [c [Hc Hin]]. exists c. split; [exact Hc | now right].
    + exists []. split; [now rewrite app_nil_r | constructor].
Qed.

Lemma for_each_columns_ends (df : DataFrame) (cols : list string)
    (st : list CheckResult) :
  snd (for_each cols (column_checks df) st) = inr tt ->
  forall col, In col cols -> exists s, getitem df col = OneSeries s.
Proof.
  revert st. induction cols as [|c t IH]; intros st Hok col Hin;
    [contradiction|].
  simpl in Hok. unfold bind in Hok.
  destruct (column_checks_cases df c st) as [[s [Hg E]]|[e [_ E]]];
    rewrite E in Hok; [|discriminate].
  destruct Hin as [<-|Hin]; [now exists s | now apply (IH _ Hok)].
Qed.

Lemma for_each_columns_appends (df : DataFrame) (l : list (string * Series)) :
  NoDup (columns df) -> incl l (data df) ->
  appends (for_each (map fst l) (column_checks df))
          (flat_map (fun c => column_results df (fst c) (snd c)) l).
Proof.
  intros Hnd. induction l as [|[col s] t IH]; intros Hincl; simpl.
  - apply appends_ret.
  - apply appends_bind.
    + unfold column_checks.
      rewrite (getitem_unique df col s Hnd (Hincl _ (or_introl eq_refl))).
      apply series_checks_appends.
    + apply IH. intros x Hx. apply Hincl. now right.
Qed.

Lemma table_checks_appends (df : DataFrame) :
  appends (table_checks df) (table_results df).
Proof.
  assert (H : emits (fun _ => True) (table_checks df)).
  { unfold table_checks. cbv zeta.
    repeat first [apply emits_bind | apply emits_append; exact I]. }
  apply (emits_appends _ _ H).
Qed.

(** With labels that do not repeat the run ends normally, with the three
    table results and then the results of each column in turn. *)
Lemma run_checks_unique_labels (df : DataFrame) :
  NoDup (columns df) ->
  run_checks df []
  = ((table_results df
      ++ flat_map (fun c => column_results df (fst c) (snd c)) (data df))%list,
     inr tt).
Proof.
  intros Hnd.
  pose proof (appends_bind _ _ _ _ (table_checks_appends df)
                (for_each_columns_appends df (data df) Hnd (incl_refl _)))
    as H.
  exact (H []).
Qed.

(** A run that ends normally had labels that do not repeat. *)
Lemma run_checks_ends_unique (df : DataFrame) (st : list CheckResult) :
  run_checks df [] = (st, inr tt) -> NoDup (columns df).
Proof.
  unfold run_checks, bind. rewrite (table_checks_appends df []).
  intros H. apply (NoDup_count_occ' string_dec). intros col Hin.
  assert (Hs : snd (for_each (columns df) (column_checks df)
                      ([] ++ table_results df)%list) = inr tt)
    by now rewrite H.
  destruct (for_each_columns_ends _ _ _ Hs col Hin) as [s Hg].
  now apply (getitem_one_count df col s).
Qed.

Lemma evaluate_ok (df : DataFrame) (rs : list CheckResult) :
  evaluate df = inr rs ->
  NoDup (columns df)
  /\ rs = (table_results df
           ++ flat_map (fun c => column_results df (fst c) (snd c))
                       (data df))%list.
Proof.
  unfold evaluate. destruct (run_checks df []) as [st [e|[]]] eqn:E;
    [discriminate|].
  intros H. inversion H; subst.
  pose proof (run_checks_ends_unique df rs E) as Hnd. split; [exact Hnd|].
  rewrite (run_checks_unique_labels df Hnd) in E. now inversion E.
Qed.

Lemma filter_in_column_same (col : string) (l : list CheckResult) :
  Forall (fun r => column r = Some col) l -> filter (in_column col) l = l.
Proof.
  induction 1 as [|r t Hr _ IH]; simpl; [reflexivity|].
  unfold in_column at 1. rewrite Hr, String.eqb_refl. now rewrite IH.
Qed.

Lemma filter_in_column_other (k col : string) (l : list CheckResult) :
  k <> col -> Forall (fun r => column r = Some k) l ->
  filter (in_column col) l = [].
Proof.
  intros Hne. induction 1 as [|r t Hr _ IH]; simpl; [reflexivity|].
  unfold in_column at 1. rewrite Hr.
  destruct (String.eqb_spec k col); [contradiction | exact IH].
Qed.

Lemma filter_in_column_table (col : string) (l : list CheckResult) :
  Forall (fun r => column r = None) l -> filter (in_column col) l = [].
Proof.
  induction 1 as [|r t Hr _ IH]; simpl; [reflexivity|].
  unfold in_column at 1. now rewrite Hr.
Qed.

Lemma table_results_scope (df : DataFrame) :
  Forall (fun r => column r = None) (table_results df).
Proof. repeat constructor. Qed.

Lemma results_for_flat_map (df : DataFrame) (l : list (string * Series))
    (col : string) (s : Series) :
  NoDup (map fst l) -> In (col, s) l ->
  results_for col (flat_map (fun c => column_results df (fst c) (snd c)) l)
  = column_results df col s.
Proof.
  unfold results_for.
  induction l as [|[k v] t IH]; simpl; intros Hnd Hin; [contradiction|].
  inversion Hnd as [|? ? Hk Ht]; subst. rewrite filter_app.
  destruct Hin as [Heq|Hin].
  - inversion Heq; subst.
    rewrite (filter_in_column_same _ _ (column_results_scope df col s)).
    assert (E : filter (in_column col)
                  (flat_map (fun c => column_results df (fst c) (snd c)) t)
                = []).
    { clear IH Hnd Ht Heq. induction t as [|[k v] t IH]; simpl;
        [reflexivity|].
      rewrite filter_app, IH by (intros H; apply Hk; now right).
      rewrite (filter_in_column_other k col);
        [reflexivity | | apply column_results_scope].
      intros ->. apply Hk. now left. }
    rewrite E. apply app_nil_r.
  - rewrite (filter_in_column_other k col);
      [now apply IH | | apply column_results_scope].
    intros ->. apply Hk. change col with (fst (col, s)). now apply in_map.
Qed.

(** In a run that ends normally, the results about a column are what the
    body of the loop appended for it. *)
Lemma results_for_column (df : DataFrame) (rs : list CheckResult)
    (col : string) (s : Series) :
  evaluate df = inr rs -> In (col, s) (data df) ->
  results_for col rs = column_results df col s.
Proof.
  intros He Hin. destruct (evaluate_ok df rs He) as [Hnd ->].
  unfold results_for. rewrite filter_app.
  rewrite (filter_in_column_table _ _ (table_results_scope df)). simpl.
  now apply results_for_flat_map.
Qed.

(* ================================================================== *)
(** * Distinct labels *)

Lemma existsb_eqb_In (x : string) (l : list string) :
  existsb (String.eqb x) l = true <-> In x l.
Proof.
  rewrite existsb_exists. split.
  - intros [y [Hy E]]. apply String.eqb_eq in E. now subst.
  - intros H. exists x. split; [exact H | apply String.eqb_refl].
Qed.

Lemma uniq_length_le (seen xs : list string) :
  (List.length (uniq String.eqb seen xs) <= List.length xs)%nat.
Proof.
  revert seen. induction xs as [|x t IH]; intros seen; simpl; [lia|].
  destruct (existsb (String.eqb x) seen); simpl.
  - specialize (IH seen). lia.
  - specialize (IH (x :: seen)). lia.
Qed.

Lemma uniq_length_eq (seen xs : list string) :
  List.length (uniq String.eqb seen xs) = List.length xs
  <-> NoDup xs /\ (forall x, In x xs -> ~ In x seen).
Proof.
  revert seen. induction xs as [|x t IH]; intros seen; simpl.
  - split; [intros _; split; [constructor | intros x []] | reflexivity].
  - destruct (existsb (String.eqb x) seen) eqn:E.
    + apply existsb_eqb_In in E. split.
      * intros H. pose proof (uniq_length_le seen t). lia.
      * intros [_ H]. exfalso. apply (H x); [now left | exact E].
    + assert (Hx : ~ In x seen).
      { intros H. apply existsb_eqb_In in H. congruence. }
      simpl. split.
      * intros H. injection H as H. apply IH in H. destruct H as [Hnd Hs].
        split.
        -- constructor; [|exact Hnd]. intros Hin. apply (Hs x Hin). now left.
        -- intros y [<-|Hy]; [exact Hx|]. intros Hin. apply (Hs y Hy).
           now right.
      * intros [Hnd Hs]. f_equal. apply IH. inversion Hnd; subst. split;
          [assumption|].
        intros y Hy [<-|Hin]; [contradiction|]. apply (Hs y); [now right|].
        exact Hin.
Qed.

Lemma len_set_NoDup (names : list string) :
  Z.of_nat (List.length names) = len_set names <-> NoDup names.
Proof.
  unfold len_set. rewrite Nat2Z.inj_iff.
  split.
  - intros H. symmetry in H. now apply uniq_length_eq in H.
  - intros H. symmetry. apply uniq_length_eq. split; [exact H|].
    intros x _ [].
Qed.

(* ================================================================== *)
(** * The table-level checks *)

(** C1.  Every run starts with exactly three results about the whole table,
    [row_count_positive], [columns_present] and [columns_unique] in this
    order, and everything after them is about a column.
    [row_count_positive] passes exactly when the table has a row, and its
    observed value is the row count; [columns_present] passes;
    [columns_unique] passes exactly when no label repeats. *)
Theorem table_level_checks (df : DataFrame) :
  exists r1 r2 r3 rest,
    emitted df = r1 :: r2 :: r3 :: rest
    /\ kinds [r1; r2; r3]
       = [row_count_positive; columns_present; columns_unique]
    /\ column r1 = None /\ column r2 = None /\ column r3 = None
    /\ Forall (fun r => column r <> None) rest
    /\ (success r1 = true <-> 0 < len_df df)
    /\ detail "observed_value" r1 = Some (VInt (len_df df))
    /\ success r2 = true
    /\ (success r3 = true <-> NoDup (columns df)).
Proof.
  unfold emitted, run_checks, bind.
  rewrite (table_checks_appends df []).
  destruct (for_each_columns_scope df (columns df)
              ([] ++ table_results df)%list) as [l [El Fl]].
  rewrite El. simpl.
  do 4 eexists. split; [reflexivity|].
  repeat split; simpl.
  - eapply Forall_impl; [|exact Fl]. intros r [c [Hc _]]. congruence.
  - apply Z.ltb_lt.
  - apply Z.ltb_lt.
  - rewrite negb_involutive. intros H. apply Z.eqb_eq in H.
    now apply len_set_NoDup.
  - rewrite negb_involutive. intros H. apply Z.eqb_eq.
    now apply len_set_NoDup.
Qed.

(* ================================================================== *)
(** * Binary64: conversion of integers and exact quotients *)

Lemma digits2_bounds (p : positive) :
  2 ^ (Zpos (digits2_pos p) - 1) <= Zpos p < 2 ^ Zpos (digits2_pos p).
Proof.
  induction p as [p IH|p IH|]; simpl digits2_pos.
  - rewrite Pos2Z.inj_succ.
    replace (Z.succ (Zpos (digits2_pos p)) - 1)
      with (Z.succ (Zpos (digits2_pos p) - 1)) by lia.
    rewrite !Z.pow_succ_r by lia. lia.
  - rewrite Pos2Z.inj_succ.
    replace (Z.succ (Zpos (digits2_pos p)) - 1)
      with (Z.succ (Zpos (digits2_pos p) - 1)) by lia.
    rewrite !Z.pow_succ_r by lia. lia.
  - simpl. lia.
Qed.

Lemma digits2_unique (p : positive) (k : Z) :
  2 ^ (k - 1) <= Zpos p < 2 ^ k -> Zpos (digits2_pos p) = k.
Proof.
  intros [Hl Hu]. pose proof (digits2_bounds p) as [Dl Du].
  assert (0 < k).
  { destruct (Z.ltb_spec 0 k); [assumption|]. 
    assert (2 ^ k <= 2 ^ 0).
    { destruct (Z.eq_dec k 0); [subst; lia|].
      rewrite Z.pow_neg_r by lia. simpl. lia. }
    simpl in *. lia. }
  destruct (Z.lt_trichotomy (Zpos (digits2_pos p)) k) as [Hlt|[Heq|Hgt]];
    [|exact Heq|].
  - assert (2 ^ Zpos (digits2_pos p) <= 2 ^ (k - 1))
      by (apply Z.pow_le_mono_r; lia).
    lia.
  - assert (2 ^ k <= 2 ^ (Zpos (digits2_pos p) - 1))
      by (apply Z.pow_le_mono_r; lia).
    lia.
Qed.

Lemma shr_1_m (mrs : shr_record) :
  0 <= shr_m mrs -> shr_m (shr_1 mrs) = shr_m mrs / 2.
Proof.
  destruct mrs as [m r s]. cbn [shr_m]. intros Hm.
  destruct m as [|[p|p|]|p]; cbn [shr_1 shr_m]; try lia.
  - reflexivity.
  - rewrite Pos2Z.inj_xI. apply (Z.div_unique _ _ _ 1); lia.
  - rewrite Pos2Z.inj_xO. apply (Z.div_unique _ _ _ 0); lia.
  - reflexivity.
Qed.

Lemma iter_shr_m (n : positive) (mrs : shr_record) :
  0 <= shr_m mrs ->
  shr_m (iter_pos shr_1 n mrs) = shr_m mrs / 2 ^ Zpos n.
Proof.
  revert mrs. induction n as [n IH|n IH|]; intros mrs Hm; simpl iter_pos.
  - assert (H1 : 0 <= shr_m (shr_1 mrs))
      by (rewrite shr_1_m by assumption; apply Z.div_pos; lia).
    assert (H2 : 0 <= shr_m (iter_pos shr_1 n (shr_1 mrs))).
    { rewrite IH by assumption.
      apply Z.div_pos; [assumption | apply Z.pow_pos_nonneg; lia]. }
    rewrite IH, IH, shr_1_m by assumption.
    rewrite !Z.div_div by (try apply Z.pow_pos_nonneg; lia).
    f_equal. replace (Zpos n~1) with (1 + Zpos n + Zpos n) by lia.
    rewrite !Z.pow_add_r by lia. change (2 ^ 1) with 2. ring.
  - assert (H2 : 0 <= shr_m (iter_pos shr_1 n mrs)).
    { rewrite IH by assumption.
      apply Z.div_pos; [assumption | apply Z.pow_pos_nonneg; lia]. }
    rewrite IH, IH by assumption.
    rewrite !Z.div_div by (try apply Z.pow_pos_nonneg; lia).
    f_equal. replace (Zpos n~0) with (Zpos n + Zpos n) by lia.
    rewrite !Z.pow_add_r by lia. change (2 ^ 1) with 2. ring.
  - rewrite shr_1_m by assumption. reflexivity.
Qed.

Lemma iter_xO (k p : positive) :
  Zpos (Pos.iter xO p k) = Zpos p * 2 ^ Zpos k.
Proof.
  induction k as [|k IH] using Pos.peano_ind.
  - simpl. lia.
  - rewrite Pos.iter_succ, Pos2Z.inj_xO, IH, Pos2Z.inj_succ.
    rewrite Z.pow_succ_r by lia. ring.
Qed.

Lemma shr_record_of_loc_m (m : Z) (l : location) :
  shr_m (shr_record_of_loc m l) = m.
Proof. destruct l as [|[| |]]; reflexivity. Qed.

Lemma shr_fexp_spec (m : positive) (e : Z) (l : location) :
  - 1074 <= Zpos (digits2_pos m) + e - 53 -> 53 <= Zpos (digits2_pos m) ->
  exists mrs,
    shr_fexp prec emax (Zpos m) e l = (mrs, Zpos (digits2_pos m) + e - 53)
    /\ shr_m mrs = Zpos m / 2 ^ (Zpos (digits2_pos m) - 53).
Proof.
  intros He Hd. unfold shr_fexp, fexp, emin, prec, emax. cbn [Zdigits2].
  change (3 - 1024 - 53) with (-1074).
  rewrite Z.max_l by lia.
  replace (Zpos (digits2_pos m) + e - 53 - e)
    with (Zpos (digits2_pos m) - 53) by lia.
  destruct (Zpos (digits2_pos m) - 53) as [|k|k] eqn:En; [| |lia].
  - eexists. unfold shr. split; [f_equal; lia|].
    rewrite shr_record_of_loc_m. change (2 ^ 0) with 1. now rewrite Z.div_1_r.
  - eexists. unfold shr. split; [f_equal; lia|].
    rewrite iter_shr_m; rewrite shr_record_of_loc_m; [reflexivity | lia].
Qed.

Lemma round_nearest_even_bounds (q : Z) (l : location) :
  q <= round_nearest_even q l <= q + 1.
Proof.
  unfold round_nearest_even. destruct l as [|[| |]]; try lia.
  destruct (Z.even q); lia.
Qed.

Lemma binary_round_aux_finite (s : bool) (m : positive) (e : Z) :
  - 1074 <= Zpos (digits2_pos m) + e - 53 -> 53 <= Zpos (digits2_pos m) ->
  Zpos (digits2_pos m) + e <= 1023 ->
  exists m' e', binary_round_aux prec emax s (Zpos m) e loc_Exact
                = S754_finite s m' e'.
Proof.
  intros He Hd Hu. unfold binary_round_aux.
  destruct (shr_fexp_spec m e loc_Exact He Hd) as [mrs [-> Hq]].
  pose proof (digits2_bounds m) as [Bl Bu].
  set (d := Zpos (digits2_pos m)) in *.
  assert (Hp : 0 < 2 ^ (d - 53)) by (apply Z.pow_pos_nonneg; lia).
  assert (Hq1 : 2 ^ 52 <= shr_m mrs).
  { rewrite Hq. apply Z.div_le_lower_bound; [exact Hp|].
    rewrite <- Z.pow_add_r by lia.
    now replace (d - 53 + 52) with (d - 1) by lia. }
  assert (Hq2 : shr_m mrs < 2 ^ 53).
  { rewrite Hq. apply Z.div_lt_upper_bound; [exact Hp|].
    rewrite <- Z.pow_add_r by lia.
    now replace (d - 53 + 53) with d by lia. }
  pose proof (round_nearest_even_bounds (shr_m mrs) (loc_of_shr_record mrs))
    as Hr.
  destruct (round_nearest_even (shr_m mrs) (loc_of_shr_record mrs))
    as [|m1|m1] eqn:Em1; [lia| |lia].
  destruct (Z.eq_dec (Zpos m1) (2 ^ 53)) as [E53|N53].
  - assert (D1 : Zpos (digits2_pos m1) = 54)
      by (apply digits2_unique; rewrite E53; simpl; lia).
    destruct (shr_fexp_spec m1 (d + e - 53) loc_Exact) as [mrs2 [-> Hq']];
      try lia.
    rewrite Hq', D1, E53. change (2 ^ 53 / 2 ^ (54 - 53)) with (Zpos (2 ^ 52)).
    cbv iota beta.
    replace (54 + (d + e - 53) - 53 <=? emax - prec) with true
      by (symmetry; apply Z.leb_le; unfold emax, prec; lia).
    now eexists _, _.
  - assert (D1 : Zpos (digits2_pos m1) = 53)
      by (apply digits2_unique; simpl; lia).
    destruct (shr_fexp_spec m1 (d + e - 53) loc_Exact) as [mrs2 [-> Hq']];
      try lia.
    rewrite Hq', D1. change (2 ^ (53 - 53)) with 1. rewrite Z.div_1_r.
    cbv iota beta.
    replace (53 + (d + e - 53) - 53 <=? emax - prec) with true
      by (symmetry; apply Z.leb_le; unfold emax, prec; lia).
    now eexists _, _.
Qed.

Lemma float_of_pos_finite (p : positive) :
  Zpos p < 2 ^ 1023 ->
  exists m e, float_of_Z (Zpos p) = S754_finite false m e.
Proof.
  intros Hp. unfold float_of_Z, binary_normalize, binary_round.
  pose proof (digits2_bounds p) as [Bl Bu].
  assert (Hd : Zpos (digits2_pos p) <= 1023).
  { destruct (Z.leb_spec (Zpos (digits2_pos p)) 1023); [assumption|].
    assert (2 ^ 1023 <= 2 ^ (Zpos (digits2_pos p) - 1))
      by (apply Z.pow_le_mono_r; lia). lia. }
  set (d := Zpos (digits2_pos p)) in *.
  assert (Hd0 : 0 < d) by (unfold d; lia).
  unfold shl_align, fexp, emin, prec, emax. change (3 - 1024 - 53) with (-1074).
  rewrite Z.add_0_r, Z.sub_0_r.
  change (binary_round_aux 53 1024) with (binary_round_aux prec emax).
  destruct (Z.ltb_spec d 53) as [Hlt|Hge].
  - rewrite Z.max_l by lia.
    destruct (d - 53) as [|k|k] eqn:Ek; try lia.
    assert (Dk : Zpos (digits2_pos (Pos.iter xO p k)) = 53).
    { apply digits2_unique. rewrite iter_xO.
      replace (Zpos k) with (53 - d) by lia. split.
      - replace (53 - 1) with ((d - 1) + (53 - d)) by lia.
        rewrite Z.pow_add_r by lia. apply Z.mul_le_mono_nonneg_r; [|exact Bl].
        apply Z.pow_nonneg; lia.
      - replace 53 with (d + (53 - d)) at 2 by lia.
        rewrite Z.pow_add_r by lia. apply Z.mul_lt_mono_pos_r; [|exact Bu].
        apply Z.pow_pos_nonneg; lia. }
    apply binary_round_aux_finite; rewrite Dk; lia.
  - rewrite Z.max_l by lia.
    destruct (d - 53) as [|k|k] eqn:Ek; try lia;
      apply binary_round_aux_finite; fold d; lia.
Qed.

Lemma fdiv_self (s : bool) (m : positive) (e : Z) :
  fdiv (S754_finite s m e) (S754_finite s m e) = one.
Proof.
  unfold fdiv, SFdiv, SFdiv_core_binary. cbn [Zdigits2].
  rewrite !Z.sub_diag.
  change (Z.min (fexp prec emax 0) 0) with (-53).
  change (0 - -53) with 53.
  cbv iota beta.
  rewrite Z.shiftl_mul_pow2 by lia.
  assert (E : Z.div_eucl (Zpos m * 2 ^ 53) (Zpos m) = (2 ^ 53, 0)).
  { pose proof (Z.div_eucl_eq (Zpos m * 2 ^ 53) (Zpos m)) as H.
    pose proof (Z.mod_pos_bound (Zpos m * 2 ^ 53) (Zpos m)) as Hb.
    unfold Z.modulo in Hb.
    destruct (Z.div_eucl (Zpos m * 2 ^ 53) (Zpos m)) as [q r].
    assert (Hr : 0 <= r < Zpos m) by (apply Hb; lia).
    specialize (H ltac:(lia)).
    assert (q = 2 ^ 53) by nia. subst q. f_equal. lia. }
  rewrite E.
  assert (L : new_location (Zpos m) 0 = loc_Exact).
  { unfold new_location. destruct (Z.even (Zpos m)); reflexivity. }
  rewrite L. destruct s; reflexivity.
Qed.

(* ================================================================== *)
(** * Binary64: the order *)










(* ================================================================== *)
(** * Missing values *)

Lemma filter_split_length {A : Type} (f : A -> bool) (l : list A) :
  (List.length (filter (fun b => b) (map f l))
   + List.length (filter (fun x => negb (f x)) l) = List.length l)%nat.
Proof.
  induction l as [|x t IH]; simpl; [reflexivity|].
  destruct (f x); simpl; lia.
Qed.

Lemma filter_some_length {A : Type} (l : list (option A)) :
  (List.length (filter (fun b => b) (map (fun o => negb (is_some o)) l))
   + List.length (filter is_some l) = List.length l)%nat.
Proof.
  induction l as [|x t IH]; simpl; [reflexivity|].
  destruct x; simpl; lia.
Qed.

(** The missing values and the values [dropna] keeps make up the column. *)
Lemma null_count_split (s : Series) :
  pd.sum (pd.isnull s) + pd.len (pd.dropna s) = pd.len s.
Proof.
  unfold pd.sum, pd.len, pd.isnull, pd.dropna.
  destruct s as [xs|xs|xs|xs|xs]; rewrite <- Nat2Z.inj_add; f_equal.
  - induction xs; simpl; [reflexivity | lia].
  - apply (filter_split_length isnan).
  - apply filter_some_length.
  - apply filter_some_length.
  - apply filter_some_length.
Qed.

Lemma isnull_length (s : Series) :
  Z.of_nat (List.length (pd.isnull s)) = pd.len s.
Proof.
  destruct s; simpl; now rewrite length_map.
Qed.

Lemma all_null_count (s : Series) :
  all_null s -> pd.sum (pd.isnull s) = pd.len s.
Proof.
  unfold all_null, pd.sum. intros H. rewrite <- isnull_length. f_equal.
  induction H as [|b t Hb _ IH]; simpl; [reflexivity|].
  rewrite Hb. simpl. now rewrite IH.
Qed.

Lemma all_null_dropna (s : Series) :
  all_null s -> pd.len (pd.dropna s) = 0.
Proof.
  intros H. pose proof (null_count_split s).
  rewrite (all_null_count s H) in *. lia.
Qed.

Lemma wf_df_column (df : DataFrame) (col : string) (s : Series) :
  wf_df df -> In (col, s) (data df) -> pd.len s = len_df df.
Proof.
  intros [H _] Hin. rewrite Forall_forall in H. exact (H _ Hin).
Qed.

(** [n / n * 100] is [100.0], and stays so rounded to two decimals. *)
Lemma percent_of_all (n : Z) :
  0 < n <= maxsize ->
  np_round (fmul (fdiv (float_of_Z n) (float_of_Z n)) (float_of_Z 100)) 2
  = hundred.
Proof.
  intros Hn. destruct n as [|p|p]; try lia.
  destruct (float_of_pos_finite p) as [m [e ->]].
  - unfold maxsize in Hn.
    assert (2 ^ 63 < 2 ^ 1023) by (apply Z.pow_lt_mono_r; lia). lia.
  - rewrite fdiv_self. vm_compute. reflexivity.
Qed.

Lemma column_results_no_values (df : DataFrame) (col : string) (s : Series) :
  pd.len (pd.dropna s) = 0 ->
  exists r, column_results df col s = [r]
    /\ expectation_type r = not_null
    /\ success r = (pd.sum (pd.isnull s) =? 0)
    /\ detail "missing_count" r = Some (VInt (pd.sum (pd.isnull s)))
    /\ detail "missing_percent" r
       = Some (round_
                 (if 0 <? len_df df
                  then Float (fmul (fdiv (float_of_Z (pd.sum (pd.isnull s)))
                                         (float_of_Z (len_df df)))
                                   (float_of_Z 100))
                  else Int 0) 2).
Proof.
  intros H. unfold column_results, series_checks. cbv zeta.
  unfold bind at 1. unfold append at 1. rewrite H. cbn [Z.eqb ret fst app].
  eexists. split; [reflexivity|]. repeat split.
Qed.

(* ================================================================== *)
(** * A column with nothing in it *)

(** C4, as the code has it.  In a table with at least one row, a column
    whose values are all missing gets one result only: [not_null], failed,
    with the row count as its count of missing values and [100.0] as their
    percentage.  In a table without rows the check is again the only one,
    but it passes, with [0] as the percentage. *)
Theorem all_null_column (df : DataFrame) (rs : list CheckResult)
    (col : string) (s : Series) :
  wf_df df -> evaluate df = inr rs -> In (col, s) (data df) -> all_null s ->
  exists r,
    results_for col rs = [r]
    /\ expectation_type r = not_null
    /\ detail "missing_count" r = Some (VInt (len_df df))
    /\ (0 < len_df df ->
        success r = false
        /\ detail "missing_percent" r = Some (VFloat hundred))
    /\ (len_df df = 0 ->
        success r = true /\ detail "missing_percent" r = Some (VInt 0)).
Proof.
  intros Hwf He Hin Hnull.
  rewrite (results_for_column df rs col s He Hin).
  destruct (column_results_no_values df col s (all_null_dropna s Hnull))
    as [r [Er [Hk [Hs [Hc Hp]]]]].
  rewrite (all_null_count s Hnull), (wf_df_column df col s Hwf Hin) in *.
  exists r. repeat split; try assumption.
  - rewrite Hs. apply Z.eqb_neq. lia.
  - rewrite Hp. replace (0 <? len_df df) with true
      by (symmetry; now apply Z.ltb_lt).
    unfold round_. rewrite percent_of_all; [reflexivity|].
    destruct Hwf as [_ Hmax]. lia.
  - rewrite Hs. now apply Z.eqb_eq.
  - rewrite Hp. replace (0 <? len_df df) with false
      by (symmetry; apply Z.ltb_ge; lia).
    reflexivity.
Qed.

Lemma all_null_column_witness :
  exists r,
    results_for "empty" (results_of people) = [r]
    /\ expectation_type r = not_null
    /\ detail "missing_count" r = Some (VInt 3)
    /\ success r = false
    /\ detail "missing_percent" r = Some (VFloat hundred).
Proof.
  destruct (all_null_column people (results_of people) "empty"
              (Float64 [nan; nan; nan]))
    as [r [Hr [Hk [Hc [Hrows _]]]]].
  - split; [repeat constructor | vm_compute; discriminate].
  - vm_compute. reflexivity.
  - simpl. tauto.
  - repeat constructor.
  - exists r. split; [exact Hr|]. split; [exact Hk|]. split; [exact Hc|].
    apply Hrows. reflexivity.
Defined.

(** C4 as it was stated fails on a table without rows: the column of a file
    with only a header has all its values missing, none being there, and
    its [not_null] check passes, with [0] and not [100.0] as percentage. *)
Lemma all_null_column_header_only :
  all_null (Object [])
  /\ exists r,
       results_for "a" (results_of header_only) = [r]
       /\ evaluate header_only = inr (results_of header_only)
       /\ expectation_type r = not_null
       /\ success r = true
       /\ detail "missing_percent" r = Some (VInt 0).
Proof.
  split; [constructor|]. eexists. vm_compute. repeat split.
Qed.

(* ================================================================== *)
(** * The results of one column *)

Lemma numeric_checks_emits (df : DataFrame) (col : string)
    (s clean : Series) (n : Z) :
  emits (fun r => column r = Some col) (numeric_checks df col s clean n).
Proof.
  unfold numeric_checks. cbv zeta. emits_steps. apply unique_check_emits.
Qed.

Lemma string_checks_emits (df : DataFrame) (col : string) (clean : Series) :
  emits (fun r => column r = Some col) (string_checks df col clean).
Proof.
  unfold string_checks. cbv zeta. emits_steps. apply unique_check_emits.
Qed.

Lemma datetime_checks_emits (col : string) :
  emits (fun r => column r = Some col) (datetime_checks col).
Proof. unfold datetime_checks. emits_steps. Qed.

(** A column with a value: [not_null], then the checks of its dtype class,
    then the check of few distinct values. *)
Lemma column_results_values (df : DataFrame) (col : string) (s : Series) :
  pd.len (pd.dropna s) <> 0 ->
  exists r,
    column_results df col s
    = r :: (type_results df col s ++ categorical_results col s)%list
    /\ expectation_type r = not_null
    /\ success r = (pd.sum (pd.isnull s) =? 0)
    /\ detail "missing_count" r = Some (VInt (pd.sum (pd.isnull s))).
Proof.
  intros H. apply Z.eqb_neq in H.
  unfold column_results, series_checks. cbv zeta.
  unfold bind at 1. unfold append at 1. rewrite H. cbn [app].
  eexists. split; [|repeat split].
  unfold bind at 1.
  pose proof (categorical_check_emits col (pd.dropna s)
                (pd.sum (pd.isnull s))) as Hc.
  apply emits_appends in Hc. destruct Hc as [Hc _].
  unfold type_results, categorical_results, classify.
  destruct (pd.api.types.is_numeric_dtype s).
  { pose proof (numeric_checks_emits df col s (pd.dropna s)
                  (pd.sum (pd.isnull s))) as Ht.
    apply emits_appends in Ht. destruct Ht as [Ht _].
    rewrite Ht, Hc. cbn [fst]. now rewrite <- app_assoc. }
  destruct (pd.api.types.is_string_dtype s
            || String.eqb (pd.dtype s) "object").
  { pose proof (string_checks_emits df col (pd.dropna s)) as Ht.
    apply emits_appends in Ht. destruct Ht as [Ht _].
    rewrite Ht, Hc. cbn [fst]. now rewrite <- app_assoc. }
  destruct (pd.api.types.is_datetime64_any_dtype s).
  { pose proof (datetime_checks_emits col) as Ht.
    apply emits_appends in Ht. destruct Ht as [Ht _].
    rewrite Ht, Hc. cbn [fst]. now rewrite <- app_assoc. }
  unfold ret. rewrite Hc. reflexivity.
  all: reflexivity.
Qed.

(* ================================================================== *)
(** * Distinct values *)

Lemma uniq_incl {A : Type} (eqb : A -> A -> bool) (seen xs : list A) (x : A) :
  In x (uniq eqb seen xs) -> In x xs.
Proof.
  revert seen. induction xs as [|y t IH]; intros seen; simpl; [tauto|].
  destruct (existsb (eqb y) seen).
  - intros H. right. now apply (IH seen).
  - intros [->|H]; [now left | right; now apply (IH (y :: seen))].
Qed.

Lemma filter_all {A : Type} (f : A -> bool) (l : list A) :
  (forall x, In x l -> f x = true) -> filter f l = l.
Proof.
  induction l as [|x t IH]; simpl; intros H; [reflexivity|].
  rewrite (H x (or_introl eq_refl)). f_equal. apply IH.
  intros y Hy. apply H. now right.
Qed.

Lemma filter_uniq_filter {A : Type} (f : A -> bool) (eqb : A -> A -> bool)
    (xs : list A) :
  filter f (uniq eqb [] (filter f xs)) = uniq eqb [] (filter f xs).
Proof.
  apply filter_all. intros x Hx. apply uniq_incl in Hx.
  now apply filter_In in Hx.
Qed.

(** Among values that are not missing, the distinct ones are not either. *)
Lemma dropna_unique_dropna (s : Series) :
  pd.dropna (pd.unique (pd.dropna s)) = pd.unique (pd.dropna s).
Proof.
  destruct s as [xs|xs|xs|xs|xs]; simpl; f_equal;
    first [reflexivity | apply filter_uniq_filter].
Qed.

Lemma tolist_length (s : Series) :
  Z.of_nat (List.length (pd.tolist s)) = pd.len s.
Proof. destruct s; simpl; now rewrite length_map. Qed.

(** The list of distinct values is as long as their count. *)
Lemma distinct_values_length (s : Series) :
  Z.of_nat (List.length (pd.tolist (pd.unique (pd.dropna s))))
  = distinct_count s.
Proof.
  unfold distinct_count, pd.nunique.
  now rewrite tolist_length, dropna_unique_dropna.
Qed.

Lemma no_values_no_distinct (s : Series) :
  pd.len (pd.dropna s) = 0 -> distinct_count s = 0.
Proof.
  unfold distinct_count, pd.nunique.
  destruct s as [xs|xs|xs|xs|xs]; simpl; intros H;
    change 0 with (Z.of_nat 0) in H; apply Nat2Z.inj in H;
    apply length_zero_iff_nil in H; now rewrite H.
Qed.

Lemma first5_firstn {A : Type} (l : list A) : first5 l = firstn 5 l.
Proof.
  unfold first5. destruct (Z.ltb_spec 5 (Z.of_nat (List.length l)));
    [reflexivity|].
  symmetry. apply firstn_all2. lia.
Qed.

(** The check of few distinct values: one passing result when the count is
    between 1 and 29, nothing otherwise. *)
Lemma categorical_results_few (col : string) (s : Series) :
  1 <= distinct_count s <= 29 ->
  exists r,
    categorical_results col s = [r]
    /\ expectation_type r = values_in_set
    /\ success r = true
    /\ detail "unexpected_count" r = Some (VInt 0)
    /\ detail "observed_value" r
       = Some (VFStr [Fmt (Int (distinct_count s)); Lit " unique values"])
    /\ detail "partial_unexpected_list" r
       = Some (VList (firstn 5 (pd.tolist (pd.unique (pd.dropna s))))).
Proof.
  intros [Hl Hu]. unfold categorical_results, categorical_check. cbv zeta.
  fold (distinct_count s).
  replace ((0 <? distinct_count s) && (distinct_count s <? 30)) with true.
  - eexists. split; [reflexivity|]. repeat split.
    unfold detail. cbn [result lookup String.eqb Ascii.eqb Bool.eqb].
    now rewrite first5_firstn.
  - symmetry. apply andb_true_iff. split; apply Z.ltb_lt; lia.
Qed.

Lemma categorical_results_many (col : string) (s : Series) :
  ~ (1 <= distinct_count s <= 29) -> categorical_results col s = [].
Proof.
  intros H. unfold categorical_results, categorical_check. cbv zeta.
  fold (distinct_count s).
  replace ((0 <? distinct_count s) && (distinct_count s <? 30)) with false;
    [reflexivity|].
  symmetry. apply andb_false_iff.
  destruct (Z.ltb_spec 0 (distinct_count s)); [|now left].
  right. apply Z.ltb_ge. lia.
Qed.

(* ================================================================== *)
(** * Columns of no known class *)

(** C10.  A column that is neither numeric, nor string-like, nor a datetime,
    and has a value, gets no type check: its results are [not_null], then
    [values_in_set] exactly when its count of distinct values is between 1
    and 29. *)
Theorem other_class_column (df : DataFrame) (rs : list CheckResult)
    (col : string) (s : Series) :
  evaluate df = inr rs -> In (col, s) (data df) ->
  classify s = Other -> pd.len (pd.dropna s) <> 0 ->
  kinds (results_for col rs)
  = if (1 <=? distinct_count s) && (distinct_count s <=? 29)
    then [not_null; values_in_set]
    else [not_null].
Proof.
  intros He Hin Hc Hv.
  rewrite (results_for_column df rs col s He Hin).
  destruct (column_results_values df col s Hv) as [r [-> [Hk _]]].
  unfold type_results. rewrite Hc. cbn [app kinds map]. rewrite Hk.
  destruct (Z.leb_spec 1 (distinct_count s)) as [H1|H1];
    destruct (Z.leb_spec (distinct_count s) 29) as [H2|H2]; cbn [andb].
  - destruct (categorical_results_few col s (conj H1 H2)) as [r' [-> [Hk' _]]].
    simpl. now rewrite Hk'.
  - rewrite categorical_results_many by lia. reflexivity.
  - rewrite categorical_results_many by lia. reflexivity.
  - rewrite categorical_results_many by lia. reflexivity.
Qed.

Lemma other_class_column_witness :
  kinds (results_for "wait" (results_of people))
  = if (1 <=? distinct_count (Timedelta64 [Some 5; Some 5; None]))
       && (distinct_count (Timedelta64 [Some 5; Some 5; None]) <=? 29)
    then [not_null; values_in_set]
    else [not_null].
Proof.
  apply (other_class_column people (results_of people) "wait"
           (Timedelta64 [Some 5; Some 5; None])).
  - vm_compute. reflexivity.
  - simpl. tauto.
  - reflexivity.
  - vm_compute. discriminate.
Defined.

(* ================================================================== *)
(** * Few distinct values *)

Ltac emits_kind_steps :=
  repeat first
    [ apply emits_ret
    | apply emits_append; discriminate
    | apply emits_bind
    | match goal with
      | |- emits _ (if ?b then _ else _) => destruct b
      end ].

Lemma type_results_not_in_set (df : DataFrame) (col : string) (s : Series) :
  Forall (fun r => expectation_type r <> values_in_set)
         (type_results df col s).
Proof.
  unfold type_results. destruct (classify s).
  - assert (H : emits (fun r => expectation_type r <> values_in_set)
                  (numeric_checks df col s (pd.dropna s)
                     (pd.sum (pd.isnull s)))).
    { unfold numeric_checks, unique_check. cbv zeta. emits_kind_steps. }
    apply (emits_appends _ _ H).
  - assert (H : emits (fun r => expectation_type r <> values_in_set)
                  (string_checks df col (pd.dropna s))).
    { unfold string_checks, unique_check. cbv zeta. emits_kind_steps. }
    apply (emits_appends _ _ H).
  - repeat constructor. discriminate.
  - constructor.
Qed.

(** C3.  Whatever its dtype, a column with between 1 and 29 distinct values
    gets a [values_in_set] result, once and as its last result.  It passes,
    its count of unexpected values being the constant [0]; its detail holds
    the count of distinct values and the first distinct values met, five of
    them at most. *)
Theorem values_in_set_check (df : DataFrame) (rs : list CheckResult)
    (col : string) (s : Series) :
  evaluate df = inr rs -> In (col, s) (data df) ->
  1 <= distinct_count s <= 29 ->
  exists front r,
    results_for col rs = (front ++ [r])%list
    /\ Forall (fun r' => expectation_type r' <> values_in_set) front
    /\ expectation_type r = values_in_set
    /\ success r = true
    /\ detail "unexpected_count" r = Some (VInt 0)
    /\ detail "observed_value" r
       = Some (VFStr [Fmt (Int (distinct_count s)); Lit " unique values"])
    /\ detail "partial_unexpected_list" r
       = Some (VList (firstn 5 (pd.tolist (pd.unique (pd.dropna s)))))
    /\ Z.of_nat (List.length
                   (firstn 5 (pd.tolist (pd.unique (pd.dropna s)))))
       = Z.min 5 (distinct_count s).
Proof.
  intros He Hin Hd.
  rewrite (results_for_column df rs col s He Hin).
  assert (Hv : pd.len (pd.dropna s) <> 0).
  { intros H. apply no_values_no_distinct in H. lia. }
  destruct (column_results_values df col s Hv) as [r0 [-> [Hk0 _]]].
  destruct (categorical_results_few col s Hd)
    as [r [-> [Hk [Hs [Hu [Ho Hp]]]]]].
  exists (r0 :: type_results df col s), r.
  split; [now rewrite app_comm_cons|].
  split.
  { constructor; [rewrite Hk0; discriminate|].
    apply type_results_not_in_set. }
  repeat split; try assumption.
  rewrite length_firstn, Nat2Z.inj_min, distinct_values_length. reflexivity.
Qed.

Lemma values_in_set_check_witness :
  exists front r,
    results_for "name" (results_of people) = (front ++ [r])%list
    /\ Forall (fun r' => expectation_type r' <> values_in_set) front
    /\ expectation_type r = values_in_set
    /\ success r = true
    /\ detail "unexpected_count" r = Some (VInt 0)
    /\ detail "observed_value" r
       = Some (VFStr [Fmt (Int (distinct_count
                                  (Object [Some (PyStr "ab"); None;
                                           Some (PyInt 12345)])));
                      Lit " unique values"])
    /\ detail "partial_unexpected_list" r
       = Some (VList (firstn 5 (pd.tolist (pd.unique (pd.dropna
                 (Object [Some (PyStr "ab"); None; Some (PyInt 12345)]))))))
    /\ Z.of_nat (List.length
                   (firstn 5 (pd.tolist (pd.unique (pd.dropna
                      (Object [Some (PyStr "ab"); None;
                               Some (PyInt 12345)]))))))
       = Z.min 5 (distinct_count
                    (Object [Some (PyStr "ab"); None; Some (PyInt 12345)])).
Proof.
  apply (values_in_set_check people (results_of people) "name"
           (Object [Some (PyStr "ab"); None; Some (PyInt 12345)])).
  - vm_compute. reflexivity.
  - simpl. tauto.
  - vm_compute. split; discriminate.
Defined.

(* ================================================================== *)
(** * Lengths of text *)

Lemma fold_min_Z (t : list Z) (h : Z) :
  is_minimum (fold_left Z.min t h) (h :: t).
Proof.
  revert h. induction t as [|x t IH]; intros h; simpl.
  - split; [now left | intros y [<-|[]]; lia].
  - destruct (IH (Z.min h x)) as [Hin Hle]. split.
    + destruct Hin as [E|Hin]; [|now right; right].
      rewrite <- E. destruct (Z.min_spec h x) as [[_ ->]|[_ ->]];
        [now left | now right; left].
    + intros y Hy.
      assert (Hm : fold_left Z.min t (Z.min h x) <= Z.min h x)
        by (apply Hle; now left).
      destruct Hy as [<-|[<-|Hy]]; [lia | lia |].
      apply Hle. now right.
Qed.

Lemma fold_max_Z (t : list Z) (h : Z) :
  is_maximum (fold_left Z.max t h) (h :: t).
Proof.
  revert h. induction t as [|x t IH]; intros h; simpl.
  - split; [now left | intros y [<-|[]]; lia].
  - destruct (IH (Z.max h x)) as [Hin Hle]. split.
    + destruct Hin as [E|Hin]; [|now right; right].
      rewrite <- E. destruct (Z.max_spec h x) as [[_ ->]|[_ ->]];
        [now right; left | now left].
    + intros y Hy.
      assert (Hm : Z.max h x <= fold_left Z.max t (Z.max h x))
        by (apply Hle; now left).
      destruct Hy as [<-|[<-|Hy]]; [lia | lia |].
      apply Hle. now right.
Qed.

Lemma string_like_object (s : Series) :
  classify s = StringLike -> exists xs, s = Object xs.
Proof.
  destruct s as [xs|xs|xs|xs|xs]; try discriminate. intros _. now exists xs.
Qed.

Lemma string_like_lengths (s : Series) :
  classify s = StringLike -> pd.len (pd.dropna s) <> 0 ->
  exists h t, text_lengths s = h :: t.
Proof.
  intros Hc Hv. destruct (string_like_object s Hc) as [xs ->].
  unfold text_lengths. simpl in *.
  destruct (filter is_some xs) as [|o t]; [contradiction|].
  simpl. now eexists _, _.
Qed.

(** The checks of a string-like column with a value: the type check, the
    length check, and the uniqueness check when it applies. *)
Lemma string_results_shape (df : DataFrame) (col : string) (s : Series)
    (h : Z) (t : list Z) :
  classify s = StringLike -> text_lengths s = h :: t ->
  exists rt r u,
    type_results df col s = rt :: r :: u
    /\ expectation_type rt = type_check
    /\ expectation_type r = value_length_range
    /\ Forall (fun r' => expectation_type r' = values_unique) u
    /\ success r = (fold_left Z.max t h <=? 255)
    /\ detail "observed_value" r
       = Some (VFStr [Lit "min: "; Fmt (Int (fold_left Z.min t h));
                      Lit ", max: "; Fmt (Int (fold_left Z.max t h))]).
Proof.
  intros Hc Hl. unfold type_results. rewrite Hc.
  unfold string_checks, unique_check. cbv zeta.
  unfold pd.str_len. fold (text_lengths s). rewrite Hl.
  cbn [pd.min pd.max to_int].
  destruct (pd.nunique (pd.dropna s) =? len_df df);
    (do 3 eexists; split; [reflexivity|]; repeat split;
     repeat constructor).
Qed.

Lemma categorical_results_kind (col : string) (s : Series) :
  Forall (fun r => expectation_type r = values_in_set)
         (categorical_results col s).
Proof.
  unfold categorical_results, categorical_check. cbv zeta.
  destruct ((0 <? pd.nunique (pd.dropna s))
            && (pd.nunique (pd.dropna s) <? 30)); repeat constructor.
Qed.

Lemma filter_kind_none (k k' : string) (l : list CheckResult) :
  k' <> k -> Forall (fun r => expectation_type r = k') l ->
  filter (has_kind k) l = [].
Proof.
  intros Hne. induction 1 as [|r t Hr _ IH]; simpl; [reflexivity|].
  unfold has_kind at 1. rewrite Hr.
  destruct (String.eqb_spec k' k); [contradiction | exact IH].
Qed.

Lemma filter_kind_skip (k k' : string) (r : CheckResult)
    (l : list CheckResult) :
  expectation_type r = k' -> k' <> k ->
  filter (has_kind k) (r :: l) = filter (has_kind k) l.
Proof.
  intros Hr Hne. cbn [filter]. unfold has_kind at 1. rewrite Hr.
  now destruct (String.eqb_spec k' k).
Qed.

Lemma filter_kind_keep (k : string) (r : CheckResult) (l : list CheckResult) :
  expectation_type r = k ->
  filter (has_kind k) (r :: l) = r :: filter (has_kind k) l.
Proof.
  intros Hr. cbn [filter]. unfold has_kind at 1.
  now rewrite Hr, String.eqb_refl.
Qed.

(** C5.  A string-like column with a value gets one [value_length_range]
    result.  It passes exactly when the greatest length of the text forms of
    its values is at most 255, and its detail shows the least and the
    greatest of these lengths.  So it passes when every length is at most
    255, and fails as soon as one value is longer, the length shown being
    that of the longest. *)
Theorem value_length_range_check (df : DataFrame) (rs : list CheckResult)
    (col : string) (s : Series) :
  evaluate df = inr rs -> In (col, s) (data df) ->
  classify s = StringLike -> pd.len (pd.dropna s) <> 0 ->
  exists r mn mx,
    filter (has_kind value_length_range) (results_for col rs) = [r]
    /\ is_minimum mn (text_lengths s)
    /\ is_maximum mx (text_lengths s)
    /\ (success r = true <-> mx <= 255)
    /\ detail "observed_value" r
       = Some (VFStr [Lit "min: "; Fmt (Int mn); Lit ", max: "; Fmt (Int mx)])
    /\ (Forall (fun n => n <= 255) (text_lengths s) -> success r = true)
    /\ (forall n, In n (text_lengths s) -> 255 < n ->
        success r = false /\ n <= mx).
Proof.
  intros He Hin Hc Hv.
  rewrite (results_for_column df rs col s He Hin).
  destruct (column_results_values df col s Hv) as [r0 [-> [Hk0 _]]].
  destruct (string_like_lengths s Hc Hv) as [h [t Hl]].
  destruct (string_results_shape df col s h t Hc Hl)
    as [rt [r [u [-> [Hkt [Hk [Hu [Hs Ho]]]]]]]].
  pose proof (fold_min_Z t h) as Hmin. pose proof (fold_max_Z t h) as Hmax.
  rewrite <- Hl in Hmin, Hmax.
  exists r, (fold_left Z.min t h), (fold_left Z.max t h).
  assert (Hiff : success r = true <-> fold_left Z.max t h <= 255)
    by (rewrite Hs; apply Z.leb_le).
  split.
  { cbn [app].
    rewrite (filter_kind_skip _ _ r0 _ Hk0) by discriminate.
    rewrite (filter_kind_skip _ _ rt _ Hkt) by discriminate.
    rewrite (filter_kind_keep _ r _ Hk), filter_app.
    rewrite (filter_kind_none _ values_unique u) by (discriminate || exact Hu).
    rewrite (filter_kind_none _ values_in_set)
      by (discriminate || apply categorical_results_kind).
    reflexivity. }
  split; [exact Hmin|]. split; [exact Hmax|]. split; [exact Hiff|].
  split; [exact Ho|]. destruct Hmax as [Hmax_in Hmax_le]. split.
  - intros Hall. apply Hiff. rewrite Forall_forall in Hall.
    now apply Hall.
  - intros n Hn Hlong. specialize (Hmax_le n Hn). split; [|exact Hmax_le].
    destruct (success r); [|reflexivity].
    destruct Hiff as [Hiff _]. specialize (Hiff eq_refl). lia.
Qed.

Lemma value_length_range_check_witness :
  exists r mn mx,
    filter (has_kind value_length_range)
           (results_for "name" (results_of people)) = [r]
    /\ is_minimum mn
         (text_lengths (Object [Some (PyStr "ab"); None; Some (PyInt 12345)]))
    /\ is_maximum mx
         (text_lengths (Object [Some (PyStr "ab"); None; Some (PyInt 12345)]))
    /\ (success r = true <-> mx <= 255)
    /\ detail "observed_value" r
       = Some (VFStr [Lit "min: "; Fmt (Int mn); Lit ", max: "; Fmt (Int mx)])
    /\ (Forall (fun n => n <= 255)
          (text_lengths (Object [Some (PyStr "ab"); None; Some (PyInt 12345)]))
        -> success r = true)
    /\ (forall n,
          In n (text_lengths
                  (Object [Some (PyStr "ab"); None; Some (PyInt 12345)])) ->
          255 < n -> success r = false /\ n <= mx).
Proof.
  apply (value_length_range_check people (results_of people) "name"
           (Object [Some (PyStr "ab"); None; Some (PyInt 12345)])).
  - vm_compute. reflexivity.
  - simpl. tauto.
  - reflexivity.
  - vm_compute. discriminate.
Defined.

(** The two sample columns: the notes of at most 255 characters pass, and
    with one note of 256 characters the check fails and shows 256. *)
Example length_check_flips :
  (exists r,
     filter (has_kind value_length_range)
            (results_for "note" (results_of short_notes)) = [r]
     /\ success r = true
     /\ detail "observed_value" r
        = Some (VFStr [Lit "min: "; Fmt (Int 2);
                       Lit ", max: "; Fmt (Int 255)]))
  /\ (exists r,
        filter (has_kind value_length_range)
               (results_for "note" (results_of one_long_note)) = [r]
        /\ success r = false
        /\ detail "observed_value" r
           = Some (VFStr [Lit "min: "; Fmt (Int 255);
                          Lit ", max: "; Fmt (Int 256)])).
Proof.
  split; eexists; (split; [vm_compute; reflexivity|]); split; reflexivity.
Qed.

(* ================================================================== *)
(** * Scopes and kinds *)

Lemma emitted_scope (df : DataFrame) (r : CheckResult) (c : string) :
  In r (emitted df) -> column r = Some c -> In c (columns df).
Proof.
  unfold emitted, run_checks, bind. rewrite (table_checks_appends df []).
  destruct (for_each_columns_scope df (columns df)
              ([] ++ table_results df)%list) as [l [-> Fl]].
  cbn [app]. rewrite in_app_iff. intros [Hr|Hr] Hc.
  - pose proof (table_results_scope df) as Ht.
    rewrite Forall_forall in Ht. specialize (Ht r Hr). congruence.
  - rewrite Forall_forall in Fl. destruct (Fl r Hr) as [c' [Hc' Hin]].
    congruence.
Qed.

Lemma type_results_kinds (df : DataFrame) (col : string) (s : Series) :
  kinds (type_results df col s)
  = match classify s with
    | Numeric =>
        [type_check; value_range; mean_in_range; median_in_range]
        ++ (if distinct_count s =? len_df df then [values_unique] else [])
    | StringLike =>
        [type_check; value_length_range]
        ++ (if distinct_count s =? len_df df then [values_unique] else [])
    | DatetimeLike => [type_check]
    | Other => []
    end%list.
Proof.
  unfold type_results, distinct_count. destruct (classify s).
  - unfold numeric_checks, unique_check. cbv zeta.
    destruct (pd.nunique (pd.dropna s) =? len_df df); reflexivity.
  - unfold string_checks, unique_check. cbv zeta.
    destruct (pd.nunique (pd.dropna s) =? len_df df); reflexivity.
  - reflexivity.
  - reflexivity.
Qed.

Lemma categorical_results_kinds (col : string) (s : Series) :
  kinds (categorical_results col s)
  = if (0 <? distinct_count s) && (distinct_count s <? 30)
    then [values_in_set] else [].
Proof.
  unfold categorical_results, categorical_check, distinct_count. cbv zeta.
  destruct ((0 <? pd.nunique (pd.dropna s))
            && (pd.nunique (pd.dropna s) <? 30)); reflexivity.
Qed.

Lemma column_results_kinds (df : DataFrame) (col : string) (s : Series) :
  kinds (column_results df col s)
  = expected_kinds (classify s)
      (negb (pd.len (pd.dropna s) =? 0))
      (distinct_count s =? len_df df)
      ((0 <? distinct_count s) && (distinct_count s <? 30)).
Proof.
  unfold expected_kinds.
  destruct (Z.eqb_spec (pd.len (pd.dropna s)) 0) as [H0|Hv]; cbn [negb].
  - destruct (column_results_no_values df col s H0) as [r [-> [Hk _]]].
    simpl. now rewrite Hk.
  - destruct (column_results_values df col s Hv) as [r [-> [Hk _]]].
    unfold kinds. cbn [map]. rewrite Hk, map_app.
    fold (kinds (type_results df col s)).
    fold (kinds (categorical_results col s)).
    now rewrite type_results_kinds, categorical_results_kinds.
Qed.

(** C7, as the code has it.  A result about a column names a column of the
    table, and the kinds of the results of a column are a function of its
    dtype class and of three facts about its values: whether one of them is
    not missing, whether the distinct ones are as many as the rows, and
    whether they are between 1 and 29. *)
Theorem scopes_and_kinds (df : DataFrame) (rs : list CheckResult) :
  evaluate df = inr rs ->
  (forall r c, In r rs -> column r = Some c -> In c (columns df))
  /\ (forall col s, In (col, s) (data df) ->
        kinds (results_for col rs)
        = expected_kinds (classify s)
            (negb (pd.len (pd.dropna s) =? 0))
            (distinct_count s =? len_df df)
            ((0 <? distinct_count s) && (distinct_count s <? 30))).
Proof.
  intros He. split.
  - intros r c Hr. apply (emitted_scope df r c).
    unfold emitted. unfold evaluate in He.
    destruct (run_checks df []) as [st [e|[]]]; [discriminate|].
    inversion He; subst. exact Hr.
  - intros col s Hin. rewrite (results_for_column df rs col s He Hin).
    apply column_results_kinds.
Qed.

Lemma scopes_and_kinds_witness :
  (forall r c, In r (results_of people) -> column r = Some c ->
               In c (columns people))
  /\ (forall col s, In (col, s) (data people) ->
        kinds (results_for col (results_of people))
        = expected_kinds (classify s)
            (negb (pd.len (pd.dropna s) =? 0))
            (distinct_count s =? len_df people)
            ((0 <? distinct_count s) && (distinct_count s <? 30))).
Proof.
  apply (scopes_and_kinds people (results_of people)).
  vm_compute. reflexivity.
Defined.

(** C7 as it was stated fails: two columns of one table, both [int64] and so
    of one dtype class, get different kinds of results, the identifiers
    being all distinct and the ages not. *)
Lemma same_class_different_kinds :
  classify (Int64 [1; 2; 3]) = classify (Int64 [30; 30; 41])
  /\ evaluate people = inr (results_of people)
  /\ kinds (results_for "id" (results_of people))
     = [not_null; type_check; value_range; mean_in_range; median_in_range;
        values_unique; values_in_set]
  /\ kinds (results_for "age" (results_of people))
     = [not_null; type_check; value_range; mean_in_range; median_in_range;
        values_in_set].
Proof. vm_compute. repeat split. Qed.

(* ================================================================== *)
(** * Numeric columns *)









(** The three values [0.1] add up to the same binary64 in any order, so the
    mean above does not depend on how pandas walks the column. *)
Remark sum_of_tenths_any_order :
  fadd (fadd tenth tenth) tenth = fadd tenth (fadd tenth tenth)
  /\ fdiv (fadd (fadd tenth tenth) tenth) (float_of_Z 3)
     = S754_finite false 7205759403792795 (-56)
  /\ fleb (S754_finite false 7205759403792795 (-56)) tenth = false.
Proof. vm_compute. repeat split. Qed.

(** Rounding is for display only: the mean of [0.00001] and [0.00002] is
    shown as [0.0], below the least value, and the check passes all the
    same. *)
Example rounding_is_for_display :
  let s := Float64 [decimal 1 5; decimal 2 5] in
  py_round (pd.mean s) 4 = S754_zero false
  /\ fleb (to_float (pd.min s)) (py_round (pd.mean s) 4) = false
  /\ fleb (to_float (pd.min s)) (pd.mean s)
     && fleb (pd.mean s) (to_float (pd.max s)) = true.
Proof. vm_compute. repeat split. Qed.

(* ================================================================== *)
(** * Loading *)

Lemma read_table_unsupported (env : Env) (w : World) (filepath : string) :
  supported (extension filepath) = false ->
  read_table env w filepath
  = inl (ValueError ("Unsupported file format: " ++ extension filepath)).
Proof.
  unfold supported, read_table. fold (extension filepath).
  intros H. repeat (apply orb_false_iff in H; destruct H as [H ?]).
  now rewrite H, H0, H1, H2.
Qed.

(** C2, as the code has it.  For an extension other than [.csv], [.xlsx],
    [.xls] and [.json] the loader fails with a [ValueError] whose message is
    [Error reading file: Unsupported file format: ] and the extension.  When
    the reader of a supported extension raises, the loader fails with a
    [ValueError] whose message is [Error reading file: ] and the message of
    what was raised.  Every failure of the loader is of this one form. *)
Theorem load_errors (env : Env) (w : World) (filepath : string) :
  (supported (extension filepath) = false ->
   load env w filepath
   = inl (ValueError ("Error reading file: Unsupported file format: "
                      ++ extension filepath)))
  /\ (forall cause,
        read_table env w filepath = inl cause ->
        load env w filepath
        = inl (ValueError ("Error reading file: " ++ exc_msg cause)))
  /\ (forall e,
        load env w filepath = inl e ->
        exc_type e = "ValueError"
        /\ exists cause,
             read_table env w filepath = inl cause
             /\ exc_msg e = "Error reading file: " ++ exc_msg cause).
Proof.
  unfold load. split; [|split].
  - intros Hs. now rewrite (read_table_unsupported env w filepath Hs).
  - intros cause Hc. now rewrite Hc.
  - intros e H.
    destruct (read_table env w filepath) as [cause|df]; [|discriminate].
    inversion H; subst. split; [reflexivity | now exists cause].
Qed.

Lemma load_errors_witness :
  load sample_env sample_world "uploads/notes.txt"
  = inl (ValueError "Error reading file: Unsupported file format: .txt")
  /\ load sample_env sample_world "uploads/broken.json"
     = inl (ValueError "Error reading file: Expected object or value").
Proof.
  split.
  - apply (proj1 (load_errors sample_env sample_world "uploads/notes.txt")).
    vm_compute. reflexivity.
  - apply (proj1 (proj2 (load_errors sample_env sample_world
                           "uploads/broken.json"))
             (ValueError "Expected object or value")).
    vm_compute. reflexivity.
Defined.

(** C2 as it was stated fails on a file named [notes.txt].  The message of
    the error names the extension that was refused and lists no supported
    format, and the error is a [ValueError] with the same prefix as the one
    raised for a JSON file that cannot be parsed: the two are not of
    distinct kinds. *)
Lemma unsupported_format_message :
  load sample_env sample_world "uploads/notes.txt"
  = inl (ValueError "Error reading file: Unsupported file format: .txt")
  /\ lists_supported_formats
       "Error reading file: Unsupported file format: .txt" = false
  /\ load sample_env sample_world "uploads/broken.json"
     = inl (ValueError "Error reading file: Expected object or value")
  /\ exc_type (ValueError "Error reading file: Unsupported file format: .txt")
     = exc_type (ValueError "Error reading file: Expected object or value").
Proof. vm_compute. repeat split. Qed.

(* ================================================================== *)
(** * No report without a table *)

(** C8.  When loading fails the function raises the error of the loader and
    leaves the world as it found it: no folder is made and no file written,
    the report least of all. *)
Theorem load_failure_writes_nothing (env : Env) (w : World)
    (filepath report_folder : string) (e : exn) :
  load env w filepath = inl e ->
  validate_dataset_with_expectations env w filepath report_folder
  = (w, inl e).
Proof.
  intros H. unfold validate_dataset_with_expectations. now rewrite H.
Qed.

Lemma load_failure_writes_nothing_witness :
  validate_dataset_with_expectations sample_env sample_world
    "uploads/broken.json" "reports"
  = (sample_world,
     inl (ValueError "Error reading file: Expected object or value")).
Proof.
  apply (load_failure_writes_nothing sample_env sample_world
           "uploads/broken.json" "reports").
  vm_compute. reflexivity.
Defined.

(* ================================================================== *)
(** * One table, one sequence of results *)






(* ================================================================== *)
(** * Paths *)

Lemma rfind_from_app (a b : string) (c : ascii) (i last : Z) :
  rfind_from (a ++ b) c i last
  = rfind_from b c (i + Z.of_nat (String.length a)) (rfind_from a c i last).
Proof.
  revert i last. induction a as [|x a IH]; intros i last.
  - simpl. now rewrite Z.add_0_r.
  - cbn [String.append rfind_from String.length]. rewrite IH. f_equal. lia.
Qed.

Lemma rfind_from_none (s : string) (c : ascii) (i last : Z) :
  no_char c s = true -> rfind_from s c i last = last.
Proof.
  revert i last. induction s as [|x s IH]; intros i last; simpl; [reflexivity|].
  intros H. apply andb_true_iff in H. destruct H as [Hx Hs].
  apply negb_true_iff in Hx. rewrite Hx. now apply IH.
Qed.

Lemma split_last_char (c : ascii) (s : string) :
  no_char c s = true
  \/ exists pre suf, s = pre ++ String c suf /\ no_char c suf = true.
Proof.
  induction s as [|x s IH]; [now left|].
  destruct IH as [Hn|[pre [suf [-> Hs]]]].
  - destruct (Ascii.eqb_spec x c) as [->|Hne].
    + right. exists "", s. now split.
    + left. simpl. rewrite Hn. apply Ascii.eqb_neq in Hne. now rewrite Hne.
  - right. exists (String x pre), suf. now split.
Qed.

Lemma substring_all (s : string) : substring 0 (String.length s) s = s.
Proof. induction s as [|x s IH]; simpl; [reflexivity | now rewrite IH]. Qed.

Lemma substring_skip (pre suf : string) :
  substring (String.length pre) (String.length suf) (pre ++ suf) = suf.
Proof.
  induction pre as [|x pre IH]; simpl; [apply substring_all | exact IH].
Qed.

Lemma string_app_assoc (a b c : string) : (a ++ b) ++ c = a ++ (b ++ c).
Proof. induction a as [|x a IH]; simpl; [reflexivity | now rewrite IH]. Qed.

Lemma string_length_app (a b : string) :
  String.length (a ++ b) = (String.length a + String.length b)%nat.
Proof. induction a as [|x a IH]; simpl; [reflexivity | now rewrite IH]. Qed.





Lemma endswith_slash (s : string) :
  endswith "/" s = true -> exists pre, s = pre ++ "/".
Proof.
  unfold endswith. cbn [String.length].
  induction s as [|x s IH]; [discriminate|].
  intros H. apply andb_true_iff in H. destruct H as [_ H].
  apply String.eqb_eq in H. cbn [String.length] in H.
  replace (S (String.length s) - 1)%nat with (String.length s) in H by lia.
  destruct s as [|y s].
  - simpl in H. exists "". now inversion H.
  - destruct IH as [pre Hpre].
    + apply andb_true_iff. split; [reflexivity|]. apply String.eqb_eq.
      cbn [String.length] in *.
      replace (S (String.length s) - 1)%nat with (String.length s) by lia.
      exact H.
    + exists (String x pre). simpl. now rewrite <- Hpre.
Qed.

Lemma startswith_slash (x : string) :
  no_char "/" x = true -> startswith "/" x = false.
Proof.
  unfold startswith. destruct x as [|a t]; [reflexivity|].
  cbn [no_char String.prefix]. intros H.
  destruct (ascii_dec "/" a) as [<-|Hne]; [|reflexivity].
  now rewrite Ascii.eqb_refl in H.
Qed.



(* ================================================================== *)
(** * A second run *)



(* ================================================================== *)
(** * The groups of the report *)

Lemma dget_dict_append (c col : string) (r : CheckResult)
    (d : list (string * list CheckResult)) :
  dget col (dict_append c r d)
  = if String.eqb c col
    then Some (match dget col d with
               | Some v => (v ++ [r])%list
               | None => [r]
               end)
    else dget col d.
Proof.
  induction d as [|[k v] t IH]; simpl.
  - destruct (String.eqb_spec c col); reflexivity.
  - destruct (String.eqb_spec k c) as [->|Hkc]; simpl.
    + destruct (String.eqb_spec c col); reflexivity.
    + destruct (String.eqb_spec k col) as [->|Hk].
      * destruct (String.eqb_spec c col); [now subst | reflexivity].
      * exact IH.
Qed.

Lemma dict_append_keys (c : string) (r : CheckResult)
    (d : list (string * list CheckResult)) :
  map fst (dict_append c r d)
  = if existsb (String.eqb c) (map fst d) then map fst d
    else (map fst d ++ [c])%list.
Proof.
  induction d as [|[k v] t IH]; simpl; [reflexivity|].
  rewrite (String.eqb_sym c k).
  destruct (String.eqb_spec k c) as [->|Hkc]; simpl; [reflexivity|].
  rewrite IH. now destruct (existsb (String.eqb c) (map fst t)).
Qed.

Lemma dict_append_NoDup (c : string) (r : CheckResult)
    (d : list (string * list CheckResult)) :
  NoDup (map fst d) -> NoDup (map fst (dict_append c r d)).
Proof.
  intros H. rewrite dict_append_keys.
  destruct (existsb (String.eqb c) (map fst d)) eqn:E; [exact H|].
  apply NoDup_app; [exact H | repeat constructor; intros [] |].
  intros x Hx [<-|[]]. apply existsb_eqb_In in Hx. congruence.
Qed.

Lemma dict_append_count (c : string) (r : CheckResult)
    (d : list (string * list CheckResult)) :
  grouped_count (dict_append c r d) = S (grouped_count d).
Proof.
  unfold grouped_count. induction d as [|[k v] t IH]; simpl; [reflexivity|].
  destruct (String.eqb k c); simpl.
  - rewrite !length_app. simpl. lia.
  - rewrite !length_app, IH. lia.
Qed.

Lemma results_for_snoc (col : string) (pre : list CheckResult)
    (r : CheckResult) :
  results_for col (pre ++ [r])
  = (results_for col pre ++ if in_column col r then [r] else [])%list.
Proof. unfold results_for. rewrite filter_app. reflexivity. Qed.

Lemma as_group_snoc (l : list CheckResult) (r : CheckResult) :
  as_group (l ++ [r])
  = Some (match as_group l with
          | Some v => (v ++ [r])%list
          | None => [r]
          end).
Proof. destruct l; reflexivity. Qed.

(** The grouping loop after any prefix of the results. *)
Lemma group_step_invariant (pre rs : list CheckResult)
    (g : list CheckResult) (d : list (string * list CheckResult)) :
  g = filter is_table_result pre ->
  NoDup (map fst d) ->
  (forall col, dget col d = as_group (results_for col pre)) ->
  (List.length g + grouped_count d = List.length pre)%nat ->
  let acc :=
    fold_left
      (fun acc res =>
         match column res with
         | None => ((fst acc ++ [res])%list, snd acc)
         | Some col => (fst acc, dict_append col res (snd acc))
         end)
      rs (g, d) in
  fst acc = filter is_table_result (pre ++ rs)
  /\ NoDup (map fst (snd acc))
  /\ (forall col, dget col (snd acc) = as_group (results_for col (pre ++ rs)))
  /\ (List.length (fst acc) + grouped_count (snd acc)
      = List.length (pre ++ rs))%nat.
Proof.
  revert pre g d. induction rs as [|r t IH]; intros pre g d Hg Hn Hd Hc.
  - simpl. rewrite app_nil_r. now repeat split.
  - cbn [fold_left fst snd].
    replace (pre ++ r :: t)%list with ((pre ++ [r]) ++ t)%list
      by (now rewrite <- app_assoc).
    destruct (column r) as [c|] eqn:Ec.
    + apply IH.
      * rewrite filter_app. simpl. unfold is_table_result at 2.
        rewrite Ec. simpl. now rewrite app_nil_r.
      * now apply dict_append_NoDup.
      * intros col. rewrite dget_dict_append, results_for_snoc.
        unfold in_column. rewrite Ec.
        destruct (String.eqb c col).
        -- now rewrite as_group_snoc, Hd.
        -- now rewrite app_nil_r.
      * rewrite dict_append_count, length_app. simpl. lia.
    + apply IH.
      * rewrite filter_app. simpl. unfold is_table_result at 2.
        rewrite Ec. simpl. now rewrite Hg.
      * exact Hn.
      * intros col. rewrite results_for_snoc. unfold in_column.
        rewrite Ec. now rewrite app_nil_r.
      * rewrite !length_app. simpl. lia.
Qed.

(** X1.  Grouping a list of results loses and repeats nothing.  The table
    group holds the results without a column, in their order; each column
    that has a result has one group, with its results in their order, and no
    other group exists; the groups together hold as many results as the
    list. *)
Theorem grouping_partitions (rs : list CheckResult) :
  fst (group_by_column rs) = filter is_table_result rs
  /\ NoDup (map fst (snd (group_by_column rs)))
  /\ (forall col,
        dget col (snd (group_by_column rs)) = as_group (results_for col rs))
  /\ (List.length (fst (group_by_column rs))
      + grouped_count (snd (group_by_column rs)) = List.length rs)%nat.
Proof.
  unfold group_by_column.
  apply (group_step_invariant [] rs [] []); try reflexivity.
  - constructor.
Qed.

Lemma group_by_column_fold (rs : list CheckResult) :
  group_by_column rs = fold_left group_step rs ([], []).
Proof. reflexivity. Qed.

Lemma fold_table_block (l g : list CheckResult)
    (d : list (string * list CheckResult)) :
  Forall (fun r => column r = None) l ->
  fold_left group_step l (g, d) = ((g ++ l)%list, d).
Proof.
  intros H. revert g. induction H as [|r t Hr _ IH]; intros g; simpl.
  - now rewrite app_nil_r.
  - unfold group_step at 2. rewrite Hr. cbn [fst snd].
    now rewrite IH, <- app_assoc.
Qed.

Lemma dict_append_new (c : string) (r : CheckResult)
    (d : list (string * list CheckResult)) :
  ~ In c (map fst d) -> dict_append c r d = (d ++ [(c, [r])])%list.
Proof.
  induction d as [|[k v] t IH]; simpl; intros H; [reflexivity|].
  destruct (String.eqb_spec k c) as [->|Hne]; [exfalso; apply H; now left|].
  rewrite IH; [reflexivity|]. intros Hin. apply H. now right.
Qed.

Lemma dict_append_last (c : string) (r : CheckResult) (v : list CheckResult)
    (d : list (string * list CheckResult)) :
  ~ In c (map fst d) ->
  dict_append c r (d ++ [(c, v)]) = (d ++ [(c, (v ++ [r])%list)])%list.
Proof.
  induction d as [|[k w] t IH]; simpl; intros H.
  - now rewrite String.eqb_refl.
  - destruct (String.eqb_spec k c) as [->|Hne]; [exfalso; apply H; now left|].
    rewrite IH; [reflexivity|]. intros Hin. apply H. now right.
Qed.

Lemma fold_column_block_more (c : string) (l v g : list CheckResult)
    (d : list (string * list CheckResult)) :
  Forall (fun r => column r = Some c) l -> ~ In c (map fst d) ->
  fold_left group_step l (g, (d ++ [(c, v)])%list)
  = (g, (d ++ [(c, (v ++ l)%list)])%list).
Proof.
  intros H Hc. revert v. induction H as [|r t Hr _ IH]; intros v; simpl.
  - now rewrite app_nil_r.
  - unfold group_step at 2. rewrite Hr. cbn [fst snd].
    rewrite (dict_append_last c r v d Hc), IH. now rewrite <- app_assoc.
Qed.

Lemma fold_column_block (c : string) (r : CheckResult)
    (t g : list CheckResult) (d : list (string * list CheckResult)) :
  Forall (fun r' => column r' = Some c) (r :: t) -> ~ In c (map fst d) ->
  fold_left group_step (r :: t) (g, d) = (g, (d ++ [(c, r :: t)])%list).
Proof.
  intros H Hc. inversion H as [|? ? Hr Ht]; subst. simpl.
  unfold group_step at 2. rewrite Hr. cbn [fst snd].
  rewrite (dict_append_new c r d Hc).
  now rewrite (fold_column_block_more c t [r] g d Ht Hc).
Qed.

Lemma column_results_head (df : DataFrame) (col : string) (s : Series) :
  exists r t, column_results df col s = r :: t /\ expectation_type r = not_null.
Proof.
  destruct (Z.eq_dec (pd.len (pd.dropna s)) 0) as [H0|Hv].
  - destruct (column_results_no_values df col s H0) as [r [-> [Hk _]]].
    now exists r, [].
  - destruct (column_results_values df col s Hv) as [r [-> [Hk _]]].
    now eexists r, _.
Qed.

Lemma fold_column_blocks (df : DataFrame) (l : list (string * Series))
    (g : list CheckResult) (d : list (string * list CheckResult)) :
  NoDup (map fst l) ->
  (forall c, In c (map fst l) -> ~ In c (map fst d)) ->
  fold_left group_step
    (flat_map (fun c => column_results df (fst c) (snd c)) l) (g, d)
  = (g,
     (d ++ map (fun c => (fst c, column_results df (fst c) (snd c))) l)%list).
Proof.
  revert d. induction l as [|[col s] t IH]; intros d Hnd Hd; simpl.
  - now rewrite app_nil_r.
  - inversion Hnd as [|? ? Hcol Ht]; subst.
    rewrite fold_left_app.
    destruct (column_results_head df col s) as [r [tl [E _]]].
    pose proof (column_results_scope df col s) as Hs. rewrite E in *.
    rewrite (fold_column_block col r tl g d Hs)
      by (apply Hd; now left).
    rewrite IH; [now rewrite <- app_assoc | exact Ht |].
    intros c Hc. rewrite map_app, in_app_iff. simpl.
    intros [Hin|[<-|[]]]; [|contradiction].
    apply (Hd c); [now right | exact Hin].
Qed.

(** X2.  In the report of a run the table group holds the three table
    results, and the column groups are the columns of the table in its
    order, each with exactly the results about that column and none of them
    empty. *)
Theorem report_groups_follow_columns (df : DataFrame)
    (rs : list CheckResult) (w : World) (filepath ext : string) :
  evaluate df = inr rs ->
  rep_global (build_report w filepath ext df rs) = table_results df
  /\ map fst (rep_by_column (build_report w filepath ext df rs)) = columns df
  /\ rep_by_column (build_report w filepath ext df rs)
     = map (fun c => (fst c, results_for (fst c) rs)) (data df)
  /\ Forall (fun grp => snd grp <> [])
            (rep_by_column (build_report w filepath ext df rs)).
Proof.
  intros He. destruct (evaluate_ok df rs He) as [Hnd Ers].
  assert (G : group_by_column rs
              = (table_results df,
                 map (fun c => (fst c, column_results df (fst c) (snd c)))
                     (data df))).
  { rewrite group_by_column_fold, Ers, fold_left_app.
    rewrite (fold_table_block _ _ _ (table_results_scope df)).
    rewrite fold_column_blocks; [reflexivity | exact Hnd |].
    intros c _ []. }
  cbn [build_report rep_global rep_by_column]. rewrite G. cbn [fst snd].
  split; [reflexivity|]. split.
  { rewrite map_map. reflexivity. }
  split.
  { apply map_ext_in. intros [col s] Hin. cbn [fst snd].
    now rewrite (results_for_column df rs col s He Hin). }
  apply Forall_forall. intros grp Hg. apply in_map_iff in Hg.
  destruct Hg as [[col s] [<- _]]. cbn [fst snd].
  destruct (column_results_head df col s) as [r [tl [-> _]]]. discriminate.
Qed.

Lemma report_groups_follow_columns_witness :
  rep_global (build_report sample_world "uploads/people.csv" ".csv" people
                (results_of people)) = table_results people
  /\ map fst (rep_by_column
                (build_report sample_world "uploads/people.csv" ".csv"
                   people (results_of people))) = columns people
  /\ rep_by_column (build_report sample_world "uploads/people.csv" ".csv"
                      people (results_of people))
     = map (fun c => (fst c, results_for (fst c) (results_of people)))
           (data people)
  /\ Forall (fun grp => snd grp <> [])
            (rep_by_column
               (build_report sample_world "uploads/people.csv" ".csv"
                  people (results_of people))).
Proof.
  apply (report_groups_follow_columns people (results_of people)
           sample_world "uploads/people.csv" ".csv").
  vm_compute. reflexivity.
Defined.

(* ================================================================== *)
(** * The counts of the report *)

Lemma filter_success_split (rs : list CheckResult) :
  (List.length (filter success rs)
   + List.length (filter (fun r => negb (success r)) rs)
   = List.length rs)%nat.
Proof.
  induction rs as [|r t IH]; simpl; [reflexivity|].
  destruct (success r); simpl; lia.
Qed.

(** X3.  In every report the count of failed checks, computed as the total
    less the passed ones, is the number of results that did not pass; the
    passed and failed counts are not negative and add up to the total, which
    is the number of results. *)
Theorem report_counts (w : World) (filepath ext : string) (df : DataFrame)
    (rs : list CheckResult) :
  rep_total (build_report w filepath ext df rs) = Z.of_nat (List.length rs)
  /\ rep_failed (build_report w filepath ext df rs)
     = Z.of_nat (List.length (filter (fun r => negb (success r)) rs))
  /\ rep_successful (build_report w filepath ext df rs)
     + rep_failed (build_report w filepath ext df rs)
     = rep_total (build_report w filepath ext df rs)
  /\ 0 <= rep_successful (build_report w filepath ext df rs)
  /\ 0 <= rep_failed (build_report w filepath ext df rs).
Proof.
  cbn [build_report rep_total rep_failed rep_successful].
  pose proof (filter_success_split rs). lia.
Qed.

(* ================================================================== *)
(** * What a run that ends normally leaves behind *)





(* ================================================================== *)
(** * Labels that repeat *)





(* ================================================================== *)
(** * The uniqueness check *)

Lemma unique_in_type_results (df : DataFrame) (col : string) (s : Series) :
  exists u,
    filter (has_kind values_unique) (type_results df col s)
    = (if match classify s with
          | Numeric | StringLike => distinct_count s =? len_df df
          | _ => false
          end
       then [u] else [])
    /\ success u = true
    /\ detail "unique_count" u = Some (VInt (distinct_count s))
    /\ detail "total_count" u = Some (VInt (len_df df)).
Proof.
  exists {| expectation_type := "expect_column_values_to_be_unique";
            success := true;
            column := Some col;
            result := [("observed_value", VStr "All values are unique");
                       ("unique_count", VInt (pd.nunique (pd.dropna s)));
                       ("total_count", VInt (len_df df))] |}.
  split; [|repeat split].
  unfold type_results, distinct_count.
  destruct (classify s); [| |reflexivity|reflexivity].
  - unfold numeric_checks, unique_check. cbv zeta.
    destruct (pd.nunique (pd.dropna s) =? len_df df); reflexivity.
  - unfold string_checks, unique_check. cbv zeta.
    destruct (pd.nunique (pd.dropna s) =? len_df df); reflexivity.
Qed.

(** X7.  A column gets a [values_unique] result exactly when it has a value,
    is numeric or string-like, and has as many distinct values as the table
    has rows.  There is at most one such result; it passes, and both counts
    in its detail are the row count. *)
Theorem values_unique_check (df : DataFrame) (rs : list CheckResult)
    (col : string) (s : Series) :
  evaluate df = inr rs -> In (col, s) (data df) ->
  (filter (has_kind values_unique) (results_for col rs) <> []
   <-> pd.len (pd.dropna s) <> 0
       /\ (classify s = Numeric \/ classify s = StringLike)
       /\ distinct_count s = len_df df)
  /\ (List.length (filter (has_kind values_unique) (results_for col rs))
      <= 1)%nat
  /\ Forall (fun r => success r = true
                      /\ detail "unique_count" r = Some (VInt (len_df df))
                      /\ detail "total_count" r = Some (VInt (len_df df)))
            (filter (has_kind values_unique) (results_for col rs)).
Proof.
  intros He Hin. rewrite (results_for_column df rs col s He Hin).
  destruct (Z.eq_dec (pd.len (pd.dropna s)) 0) as [H0|Hv].
  - destruct (column_results_no_values df col s H0) as [r [-> [Hk _]]].
    rewrite (filter_kind_skip _ _ r [] Hk) by discriminate. simpl.
    split; [|split; [lia | constructor]].
    split; [congruence | tauto].
  - destruct (column_results_values df col s Hv) as [r [-> [Hk _]]].
    rewrite (filter_kind_skip _ _ r _ Hk) by discriminate.
    rewrite filter_app.
    rewrite (filter_kind_none _ values_in_set (categorical_results col s))
      by (discriminate || apply categorical_results_kind).
    rewrite app_nil_r.
    destruct (unique_in_type_results df col s) as [u [-> [Hs [Hu Ht]]]].
    destruct (match classify s with
              | Numeric | StringLike => distinct_count s =? len_df df
              | _ => false
              end) eqn:Ecnd.
    + assert (Hcls : (classify s = Numeric \/ classify s = StringLike)
                     /\ distinct_count s = len_df df).
      { destruct (classify s); try discriminate;
          apply Z.eqb_eq in Ecnd; split; auto. }
      destruct Hcls as [Hcls Hdc].
      split; [split; [intros _; now repeat split | discriminate]|].
      split; [simpl; lia|].
      repeat constructor; [exact Hs | now rewrite Hu, Hdc | exact Ht].
    + split; [|split; [simpl; lia | constructor]].
      split; [congruence|]. intros [_ [Hcls Hdc]]. exfalso.
      apply Z.eqb_eq in Hdc. destruct Hcls as [Hc|Hc]; rewrite Hc in Ecnd;
        congruence.
Qed.

Lemma values_unique_check_witness :
  (filter (has_kind values_unique) (results_for "id" (results_of people))
   <> []
   <-> pd.len (pd.dropna (Int64 [1; 2; 3])) <> 0
       /\ (classify (Int64 [1; 2; 3]) = Numeric
           \/ classify (Int64 [1; 2; 3]) = StringLike)
       /\ distinct_count (Int64 [1; 2; 3]) = len_df people)
  /\ (List.length (filter (has_kind values_unique)
                     (results_for "id" (results_of people))) <= 1)%nat
  /\ Forall (fun r => success r = true
                      /\ detail "unique_count" r
                         = Some (VInt (len_df people))
                      /\ detail "total_count" r
                         = Some (VInt (len_df people)))
            (filter (has_kind values_unique)
                    (results_for "id" (results_of people))).
Proof.
  apply (values_unique_check people (results_of people) "id"
           (Int64 [1; 2; 3])).
  - vm_compute. reflexivity.
  - simpl. tauto.
Defined.

(* ================================================================== *)
(** * The check of missing values *)

Lemma sum_zero_no_null (bs : list bool) :
  pd.sum bs = 0 <-> Forall (fun b => b = false) bs.
Proof.
  unfold pd.sum. induction bs as [|b t IH]; simpl.
  - split; [constructor | reflexivity].
  - destruct b; simpl.
    + split; [lia | intros H; inversion H; discriminate].
    + rewrite IH. split; [now constructor | intros H; now inversion H].
Qed.

Lemma column_results_first (df : DataFrame) (col : string) (s : Series) :
  exists r rest,
    column_results df col s = r :: rest
    /\ expectation_type r = not_null
    /\ Forall (fun r' => expectation_type r' <> not_null) rest
    /\ success r = (pd.sum (pd.isnull s) =? 0)
    /\ detail "element_count" r = Some (VInt (len_df df))
    /\ detail "missing_count" r = Some (VInt (pd.sum (pd.isnull s)))
    /\ detail "unexpected_count" r = Some (VInt (pd.sum (pd.isnull s))).
Proof.
  pose proof (column_results_kinds df col s) as Hk.
  assert (E : exists r l,
             column_results df col s = r :: l
             /\ expectation_type r = not_null
             /\ success r = (pd.sum (pd.isnull s) =? 0)
             /\ detail "element_count" r = Some (VInt (len_df df))
             /\ detail "missing_count" r
                = Some (VInt (pd.sum (pd.isnull s)))
             /\ detail "unexpected_count" r
                = Some (VInt (pd.sum (pd.isnull s)))).
  { unfold column_results, series_checks. cbv zeta.
    unfold bind at 1. unfold append at 1. cbn [app].
    set (k := if pd.len (pd.dropna s) =? 0 then ret tt else _).
    assert (Hf : emits (fun r => column r = Some col) k).
    { unfold k. emits_steps;
        first [apply unique_check_emits | apply categorical_check_emits]. }
    destruct Hf as [l [Hl _]]. rewrite (Hl [_]). cbn [fst app].
    eexists _, l. split; [reflexivity|]. repeat split. }
  destruct E as [r [l [E [Hkr [Hs [He [Hm Hu]]]]]]].
  exists r, l. rewrite E in *. repeat split; try assumption.
  unfold kinds in Hk. cbn [map] in Hk. unfold expected_kinds in Hk.
  injection Hk as _ Hk.
  assert (Hn : Forall (fun k' => k' <> not_null) (map expectation_type l)).
  { rewrite Hk.
    destruct (negb (pd.len (pd.dropna s) =? 0)); [|constructor].
    destruct (classify s), (distinct_count s =? len_df df),
      ((0 <? distinct_count s) && (distinct_count s <? 30));
      repeat constructor; discriminate. }
  rewrite Forall_map in Hn. exact Hn.
Qed.

(** X8.  Every column of a table as pandas holds it gets [not_null] as its
    first result and only there.  It passes exactly when no value of the
    column is missing; its detail holds the row count and the count of
    missing values, and these and the values that are left make up the
    rows. *)
Theorem not_null_check (df : DataFrame) (rs : list CheckResult)
    (col : string) (s : Series) :
  wf_df df -> evaluate df = inr rs -> In (col, s) (data df) ->
  exists r rest,
    results_for col rs = r :: rest
    /\ expectation_type r = not_null
    /\ Forall (fun r' => expectation_type r' <> not_null) rest
    /\ (success r = true <-> Forall (fun b => b = false) (pd.isnull s))
    /\ detail "element_count" r = Some (VInt (len_df df))
    /\ detail "missing_count" r = Some (VInt (pd.sum (pd.isnull s)))
    /\ detail "unexpected_count" r = Some (VInt (pd.sum (pd.isnull s)))
    /\ pd.sum (pd.isnull s) + pd.len (pd.dropna s) = len_df df.
Proof.
  intros Hwf He Hin. rewrite (results_for_column df rs col s He Hin).
  destruct (column_results_first df col s)
    as [r [rest [-> [Hk [Hn [Hs [He' [Hm Hu]]]]]]]].
  exists r, rest. repeat split; try assumption.
  - intros H. rewrite Hs in H. apply Z.eqb_eq in H.
    now apply sum_zero_no_null.
  - intros H. rewrite Hs. apply Z.eqb_eq. now apply sum_zero_no_null.
  - rewrite null_count_split. now apply (wf_df_column df col s).
Qed.

Lemma not_null_check_witness :
  exists r rest,
    results_for "name" (results_of people) = r :: rest
    /\ expectation_type r = not_null
    /\ Forall (fun r' => expectation_type r' <> not_null) rest
    /\ (success r = true
        <-> Forall (fun b => b = false)
              (pd.isnull (Object [Some (PyStr "ab"); None;
                                  Some (PyInt 12345)])))
    /\ detail "element_count" r = Some (VInt (len_df people))
    /\ detail "missing_count" r
       = Some (VInt (pd.sum (pd.isnull (Object [Some (PyStr "ab"); None;
                                                Some (PyInt 12345)]))))
    /\ detail "unexpected_count" r
       = Some (VInt (pd.sum (pd.isnull (Object [Some (PyStr "ab"); None;
                                                Some (PyInt 12345)]))))
    /\ pd.sum (pd.isnull (Object [Some (PyStr "ab"); None;
                                  Some (PyInt 12345)]))
       + pd.len (pd.dropna (Object [Some (PyStr "ab"); None;
                                    Some (PyInt 12345)]))
       = len_df people.
Proof.
  apply (not_null_check people (results_of people) "name"
           (Object [Some (PyStr "ab"); None; Some (PyInt 12345)])).
  - split; [repeat constructor | vm_compute; discriminate].
  - vm_compute. reflexivity.
  - simpl. tauto.
Defined.

(* ================================================================== *)
(** * Kinds that are known, checks that cannot fail *)

Lemma series_checks_sound (df : DataFrame) (col : string) (s : Series) :
  emits (fun r => sound_result r = true) (series_checks df col s).
Proof.
  unfold series_checks, numeric_checks, string_checks, datetime_checks,
    unique_check, categorical_check.
  cbv zeta. emits_steps.
Qed.

Lemma table_checks_sound (df : DataFrame) :
  emits (fun r => sound_result r = true) (table_checks df).
Proof. unfold table_checks. cbv zeta. emits_steps. Qed.

Lemma for_each_columns_forall (P : CheckResult -> Prop) (df : DataFrame)
    (cols : list string) (st : list CheckResult) :
  (forall col s, Forall P (column_results df col s)) ->
  exists l, fst (for_each cols (column_checks df) st) = (st ++ l)%list
            /\ Forall P l.
Proof.
  intros HP. revert st. induction cols as [|col t IH]; intros st; simpl.
  - exists []. split; [now rewrite app_nil_r | constructor].
  - unfold bind.
    destruct (column_checks_cases df col st) as [[s [_ ->]]|[e [_ ->]]].
    + destruct (IH (st ++ column_results df col s)%list) as [l [El Fl]].
      exists (column_results df col s ++ l)%list. split.
      * now rewrite El, app_assoc.
      * apply Forall_app. split; [apply HP | exact Fl].
    + exists []. split; [now rewrite app_nil_r | constructor].
Qed.

(** X9.  Whatever the table and however the run ends, each result that was
    appended has one of the eleven kinds of the code, and a result of kind
    [columns_present], [type_check], [value_range], [values_unique] or
    [values_in_set] has passed: only the six other kinds can fail. *)
Theorem descriptive_checks_pass (df : DataFrame) (r : CheckResult) :
  In r (emitted df) ->
  In (expectation_type r) all_kinds
  /\ (In (expectation_type r) descriptive_kinds -> success r = true).
Proof.
  intros Hin.
  assert (Hs : sound_result r = true).
  { revert Hin. unfold emitted, run_checks, bind.
    destruct (emits_appends _ _ (table_checks_sound df)) as [Ht Ft].
    rewrite (Ht []).
    destruct (for_each_columns_forall (fun r => sound_result r = true) df
                (columns df) ([] ++ fst (table_checks df []))%list)
      as [l [-> Fl]].
    { intros col s.
      apply (emits_appends _ _ (series_checks_sound df col s)). }
    cbn [app]. rewrite in_app_iff. intros [H|H].
    - rewrite Forall_forall in Ft. now apply Ft.
    - rewrite Forall_forall in Fl. now apply Fl. }
  unfold sound_result in Hs. apply andb_true_iff in Hs.
  destruct Hs as [Hk Hd]. split.
  - apply existsb_exists in Hk. destruct Hk as [k [Hk E]].
    apply String.eqb_eq in E. now rewrite E.
  - intros Hdk.
    assert (E : existsb (String.eqb (expectation_type r)) descriptive_kinds
                = true).
    { apply existsb_exists. exists (expectation_type r).
      split; [exact Hdk | apply String.eqb_refl]. }
    now rewrite E in Hd.
Qed.

Lemma descriptive_checks_pass_witness :
  exists r,
    In r (emitted twice_a)
    /\ expectation_type r = columns_present
    /\ In (expectation_type r) all_kinds
    /\ (In (expectation_type r) descriptive_kinds -> success r = true).
Proof.
  eexists. split; [vm_compute; right; left; reflexivity|].
  split; [reflexivity|].
  apply (descriptive_checks_pass twice_a).
  vm_compute. right. left. reflexivity.
Defined.

(* ================================================================== *)
(** * How many results *)

Lemma expected_kinds_length (c : dtype_class) (b1 b2 b3 : bool) :
  (1 <= List.length (expected_kinds c b1 b2 b3) <= 7)%nat.
Proof. destruct c, b1, b2, b3; simpl; lia. Qed.

Lemma column_results_length (df : DataFrame) (col : string) (s : Series) :
  (1 <= List.length (column_results df col s) <= 7)%nat.
Proof.
  rewrite <- (length_map expectation_type).
  fold (kinds (column_results df col s)).
  rewrite column_results_kinds. apply expected_kinds_length.
Qed.

Lemma flat_map_length_bounds {A B : Type} (f : A -> list B) (l : list A)
    (a b : nat) :
  (forall x, a <= List.length (f x) <= b)%nat ->
  (a * List.length l <= List.length (flat_map f l) <= b * List.length l)%nat.
Proof.
  intros H. induction l as [|x t IH]; simpl; [lia|].
  rewrite length_app. specialize (H x). lia.
Qed.

(** X10.  A run that ends normally gives three results for the table and
    between one and seven for each column: between [3 + n] and [3 + 7 n]
    results for a table of [n] columns. *)
Theorem result_count_bounds (df : DataFrame) (rs : list CheckResult) :
  evaluate df = inr rs ->
  (forall col s, In (col, s) (data df) ->
     (1 <= List.length (results_for col rs) <= 7)%nat)
  /\ (3 + List.length (columns df) <= List.length rs
      <= 3 + 7 * List.length (columns df))%nat.
Proof.
  intros He. split.
  - intros col s Hin. rewrite (results_for_column df rs col s He Hin).
    apply column_results_length.
  - destruct (evaluate_ok df rs He) as [_ ->].
    rewrite length_app. unfold columns. rewrite length_map.
    pose proof (flat_map_length_bounds
                  (fun c => column_results df (fst c) (snd c)) (data df) 1 7
                  (fun c => column_results_length df (fst c) (snd c))) as H.
    change (List.length (table_results df)) with 3%nat. lia.
Qed.

Lemma result_count_bounds_witness :
  (forall col s, In (col, s) (data people) ->
     (1 <= List.length (results_for col (results_of people)) <= 7)%nat)
  /\ (3 + List.length (columns people) <= List.length (results_of people)
      <= 3 + 7 * List.length (columns people))%nat.
Proof.
  apply (result_count_bounds people (results_of people)).
  vm_compute. reflexivity.
Defined.

(* ================================================================== *)
(** * A table without rows *)

Lemma no_rows_column_results (df : DataFrame) (col : string) (s : Series) :
  pd.len s = 0 ->
  exists r, column_results df col s = [r]
            /\ expectation_type r = not_null
            /\ success r = true
            /\ column r = Some col.
Proof.
  intros H0.
  assert (Hs : pd.sum (pd.isnull s) = 0 /\ pd.len (pd.dropna s) = 0).
  { pose proof (null_count_split s) as Hsplit.
    assert (0 <= pd.sum (pd.isnull s)) by (unfold pd.sum; lia).
    assert (0 <= pd.len (pd.dropna s))
      by (destruct s; unfold pd.len, pd.dropna; lia).
    lia. }
  destruct Hs as [Hsum Hlen].
  destruct (column_results_no_values df col s Hlen) as [r [E [Hk [Hs _]]]].
  exists r. split; [exact E|]. split; [exact Hk|]. split.
  - now rewrite Hs, Hsum.
  - pose proof (column_results_scope df col s) as Hc. rewrite E in Hc.
    now inversion Hc.
Qed.

(** X11.  A table with columns and no row is checked all the same.  Its run
    gives the three table results, of which [row_count_positive] fails, and
    then one passing [not_null] result for each column, in the order of the
    columns. *)
Theorem table_without_rows (df : DataFrame) :
  wf_df df -> len_df df = 0 -> NoDup (columns df) ->
  exists r1 r2 r3 rest,
    evaluate df = inr (r1 :: r2 :: r3 :: rest)
    /\ expectation_type r1 = row_count_positive /\ success r1 = false
    /\ success r2 = true /\ success r3 = true
    /\ Forall (fun r => expectation_type r = not_null /\ success r = true)
              rest
    /\ map column rest = map Some (columns df).
Proof.
  intros [Hwf _] H0 Hnd. unfold evaluate.
  rewrite (run_checks_unique_labels df Hnd).
  assert (Hall : forall l : list (string * Series),
    Forall (fun c => pd.len (snd c) = len_df df) l ->
    Forall (fun r => expectation_type r = not_null /\ success r = true)
           (flat_map (fun c => column_results df (fst c) (snd c)) l)
    /\ map column
         (flat_map (fun c => column_results df (fst c) (snd c)) l)
       = map Some (map fst l)).
  { induction 1 as [|[col s] t Hc _ IH]; simpl.
    - split; [constructor | reflexivity].
    - cbn [fst snd] in *. rewrite H0 in Hc.
      destruct (no_rows_column_results df col s Hc)
        as [r [-> [Hk [Hs Hcol]]]].
      destruct IH as [F M].
      cbn [app map]. rewrite Hcol, M. split; [|reflexivity].
      constructor; [now split | exact F]. }
  pose proof (Hall (data df) Hwf) as Hrest. fold (columns df) in Hrest.
  destruct Hrest as [F M].
  unfold table_results, table_checks. cbv zeta. unfold bind, append.
  cbn [fst app]. do 4 eexists. split; [reflexivity|].
  cbn [expectation_type success].
  repeat split; try assumption.
  - rewrite H0. reflexivity.
  - rewrite negb_involutive. apply Z.eqb_eq. now apply len_set_NoDup.
Qed.

Lemma table_without_rows_witness :
  exists r1 r2 r3 rest,
    evaluate no_rows = inr (r1 :: r2 :: r3 :: rest)
    /\ expectation_type r1 = row_count_positive /\ success r1 = false
    /\ success r2 = true /\ success r3 = true
    /\ Forall (fun r => expectation_type r = not_null /\ success r = true)
              rest
    /\ map column rest = map Some (columns no_rows).
Proof.
  apply (table_without_rows no_rows).
  - split; [repeat constructor | vm_compute; discriminate].
  - reflexivity.
  - repeat constructor; simpl; intuition discriminate.
Defined.

(* ================================================================== *)
(** * The names the upload accepts *)

Lemma rfind_from_range (s : string) (c : ascii) (i last : Z) :
  rfind_from s c i last = last
  \/ i <= rfind_from s c i last < i + Z.of_nat (String.length s).
Proof.
  revert i last. induction s as [|x s IH]; intros i last; [now left|].
  cbn [rfind_from String.length].
  destruct (IH (i + 1) (if Ascii.eqb x c then i else last)) as [E|B].
  - rewrite E. destruct (Ascii.eqb x c); [right; lia | now left].
  - right. lia.
Qed.

Lemma rfind_last_char (pre suf : string) (c : ascii) :
  no_char c suf = true ->
  rfind (pre ++ String c suf) c = Z.of_nat (String.length pre).
Proof.
  intros H. unfold rfind. rewrite rfind_from_app. cbn [rfind_from].
  rewrite Ascii.eqb_refl. now rewrite (rfind_from_none suf _ _ _ H).
Qed.

Lemma substring_prefix (a b : string) :
  substring 0 (String.length a) (a ++ b) = a.
Proof.
  induction a as [|x a IH]; simpl; [now destruct b | now rewrite IH].
Qed.

Lemma substring_app_skip (a s : string) (n : nat) :
  substring (String.length a) n (a ++ s) = substring 0 n s.
Proof. induction a as [|x a IH]; simpl; [reflexivity | exact IH]. Qed.

Lemma slice_to_prefix (a b : string) :
  slice_to (Z.of_nat (String.length a)) (a ++ b) = a.
Proof. unfold slice_to. rewrite Nat2Z.id. apply substring_prefix. Qed.

Lemma slice_from_suffix (a b : string) :
  slice_from (Z.of_nat (String.length a)) (a ++ b) = b.
Proof.
  unfold slice_from. rewrite Nat2Z.id, string_length_app.
  replace (String.length a + String.length b - String.length a)%nat
    with (String.length b) by lia.
  apply substring_skip.
Qed.

Lemma in_str_no_char (c : ascii) (s : string) :
  in_str c s = false <-> no_char c s = true.
Proof. unfold in_str. apply negb_false_iff. Qed.

Lemma no_char_split (c : ascii) (pre suf : string) :
  no_char c (pre ++ String c suf) = false.
Proof.
  induction pre as [|x pre IH]; simpl.
  - now rewrite Ascii.eqb_refl.
  - rewrite IH. apply andb_false_r.
Qed.

(** the file name cut at its last dot *)
Lemma allowed_file_split (stem ext : string) :
  no_char "." ext = true ->
  allowed_file (stem ++ String "." ext)
  = existsb (String.eqb (lower ext)) ALLOWED_EXTENSIONS.
Proof.
  intros H. unfold allowed_file, in_str, rsplit1.
  rewrite no_char_split, (rfind_last_char stem ext "." H). cbn [negb andb].
  replace (Z.of_nat (String.length stem) <? 0) with false
    by (symmetry; apply Z.ltb_ge; lia).
  cbn [nth].
  replace (Z.of_nat (String.length stem) + 1)
    with (Z.of_nat (String.length (stem ++ "."))) 
    by (rewrite string_length_app; simpl; lia).
  replace (stem ++ String "." ext) with ((stem ++ ".") ++ ext)
    by (now rewrite string_app_assoc).
  now rewrite slice_from_suffix.
Qed.

Lemma allowed_file_no_dot (s : string) :
  no_char "." s = true -> allowed_file s = false.
Proof.
  intros H. unfold allowed_file, in_str. now rewrite H.
Qed.

Lemma in_allowed (x : string) :
  existsb (String.eqb x) ALLOWED_EXTENSIONS = true
  <-> In x ALLOWED_EXTENSIONS.
Proof. apply existsb_eqb_In. Qed.

(** X12.  The upload accepts a file name exactly when it ends in a dot and
    one of csv, xlsx, xls and json, in any mix of upper and lower case:
    the text after its last dot, lowered, is one of the four. *)
Theorem allowed_file_spec (filename : string) :
  allowed_file filename = true
  <-> exists stem ext,
        filename = stem ++ "." ++ ext
        /\ no_char "." ext = true
        /\ In (lower ext) ALLOWED_EXTENSIONS.
Proof.
  split.
  - intros H.
    destruct (split_last_char "." filename) as [Hn|[stem [ext [-> He]]]].
    + rewrite (allowed_file_no_dot _ Hn) in H. discriminate.
    + exists stem, ext. split; [reflexivity|]. split; [exact He|].
      rewrite (allowed_file_split stem ext He) in H. now apply in_allowed.
  - intros [stem [ext [-> [He Hin]]]]. simpl.
    rewrite (allowed_file_split stem ext He). now apply in_allowed.
Qed.

(* ================================================================== *)
(** * The upload and the loader on the same name *)

Lemma join_form (up filename : string) :
  no_char "/" filename = true ->
  exists P, os.path.join up filename = P ++ filename
            /\ (P = "" \/ exists q, P = q ++ "/").
Proof.
  intros H. unfold os.path.join. rewrite (startswith_slash filename H).
  destruct (String.eqb_spec up "") as [->|Hne]; cbn [orb].
  - exists "". split; [reflexivity | now left].
  - destruct (endswith "/" up) eqn:E.
    + exists up. split; [reflexivity|]. right. now apply endswith_slash.
    + exists (up ++ "/"). split; [now rewrite string_app_assoc|].
      right. now exists up.
Qed.

Lemma rfind_sep (P filename : string) :
  no_char "/" filename = true ->
  (P = "" \/ exists q, P = q ++ "/") ->
  rfind (P ++ filename) "/" = Z.of_nat (String.length P) - 1.
Proof.
  intros H [->|[q ->]].
  - simpl. unfold rfind. now rewrite (rfind_from_none filename _ _ _ H).
  - rewrite string_app_assoc. simpl String.append.
    rewrite (rfind_last_char q filename "/" H).
    rewrite string_length_app. simpl. lia.
Qed.

Lemma rfind_dot_before_sep (P filename : string) :
  no_char "." filename = true ->
  (P = "" \/ exists q, P = q ++ "/") ->
  rfind (P ++ filename) "." <= Z.of_nat (String.length P) - 1.
Proof.
  intros H HP. unfold rfind. rewrite rfind_from_app.
  rewrite (rfind_from_none filename _ _ _ H).
  destruct HP as [->|[q ->]]; [simpl; lia|].
  rewrite rfind_from_app. cbn [rfind_from].
  replace (Ascii.eqb "/" ".") with false by reflexivity.
  rewrite string_length_app. simpl String.length.
  destruct (rfind_from_range q "." 0 (-1)) as [->|B]; lia.
Qed.

Lemma lower_dot (x : string) : lower (String "." x) = String "." (lower x).
Proof. reflexivity. Qed.

Lemma supported_dot (x : string) :
  supported (String "." x) = existsb (String.eqb x) ALLOWED_EXTENSIONS.
Proof.
  unfold supported, ALLOWED_EXTENSIONS. cbn [existsb String.eqb].
  replace (Ascii.eqb "." ".") with true by reflexivity. cbn [andb].
  destruct (String.eqb x "csv"), (String.eqb x "xlsx"),
    (String.eqb x "xls"), (String.eqb x "json"); reflexivity.
Qed.

(** X13.  For a file name without a slash, stored in the upload folder, the
    loader finds a reader exactly when the upload accepts the name and the
    text before its last dot is not made of dots only: a name such as
    [.csv] passes the upload and is refused by the loader. *)
Theorem loader_supports_allowed_names (upload_folder filename : string) :
  no_char "/" filename = true ->
  supported (extension (os.path.join upload_folder filename))
  = allowed_file filename
    && has_non_dot (nth 0 (rsplit1 "." filename) "").
Proof.
  intros Hs. destruct (join_form upload_folder filename Hs) as [P [-> HP]].
  unfold extension, os.path.splitext.
  rewrite (rfind_sep P filename Hs HP).
  destruct (split_last_char "." filename) as [Hn|[stem [ext [-> He]]]].
  - rewrite (allowed_file_no_dot _ Hn). cbn [andb].
    pose proof (rfind_dot_before_sep P filename Hn HP) as Hle.
    replace (Z.of_nat (String.length P) - 1 <? rfind (P ++ filename) ".")
      with false by (symmetry; apply Z.ltb_ge; lia).
    reflexivity.
  - rewrite (allowed_file_split stem ext He).
    unfold rsplit1. rewrite (rfind_last_char stem ext "." He).
    replace (Z.of_nat (String.length stem) <? 0) with false
      by (symmetry; apply Z.ltb_ge; lia).
    cbn [nth]. rewrite slice_to_prefix.
    replace (P ++ stem ++ String "." ext) with ((P ++ stem) ++ String "." ext)
      by (now rewrite string_app_assoc).
    rewrite (rfind_last_char (P ++ stem) ext "." He).
    rewrite string_length_app.
    replace (Z.of_nat (String.length P) - 1
             <? Z.of_nat (String.length P + String.length stem))
      with true by (symmetry; apply Z.ltb_lt; lia).
    assert (Hsl : slice (Z.of_nat (String.length P) - 1 + 1)
                    (Z.of_nat (String.length P + String.length stem))
                    ((P ++ stem) ++ String "." ext) = stem).
    { unfold slice.
      replace (Z.of_nat (String.length P) - 1 + 1)
        with (Z.of_nat (String.length P)) by lia.
      rewrite !Nat2Z.id.
      replace (String.length P + String.length stem - String.length P)%nat
        with (String.length stem) by lia.
      rewrite string_app_assoc, substring_app_skip.
      apply substring_prefix. }
    rewrite Hsl. cbn [andb].
    destruct (has_non_dot stem); cbn [snd].
    + rewrite <- (string_length_app P stem), slice_from_suffix.
      rewrite lower_dot, supported_dot. now rewrite andb_true_r.
    + now rewrite andb_false_r.
Qed.

Lemma loader_supports_allowed_names_witness :
  no_char "/" "people.csv" = true
  /\ supported (extension (os.path.join "uploads" "people.csv"))
     = allowed_file "people.csv"
       && has_non_dot (nth 0 (rsplit1 "." "people.csv") "").
Proof.
  split; [reflexivity|].
  apply (loader_supports_allowed_names "uploads" "people.csv"). reflexivity.
Defined.

(** A name made of a dot and an extension goes through the upload and stops
    at the loader. *)
Example dot_name_accepted_then_refused :
  allowed_file ".csv" = true
  /\ supported (extension (os.path.join "uploads" ".csv")) = false.
Proof. split; reflexivity. Qed.

(* ================================================================== *)
(** * The answers of the route *)


(* ================================================================== *)
(** * The success rate of a report *)

Lemma run_has_passing_result (df : DataFrame) (rs : list CheckResult) :
  evaluate df = inr rs ->
  (3 <= List.length rs)%nat /\ (1 <= List.length (filter success rs))%nat.
Proof.
  intros He. destruct (evaluate_ok df rs He) as [_ ->].
  rewrite filter_app, !length_app.
  unfold table_results, table_checks, bind. simpl.
  destruct (0 <? len_df df), (negb _); simpl; lia.
Qed.

Lemma rate_of_all (n : Z) :
  0 < n < 2 ^ 1023 ->
  fmul (fdiv (float_of_Z n) (float_of_Z n)) (float_of_Z 100) = hundred.
Proof.
  intros [Hp Hb]. destruct n as [|p|p]; try lia.
  destruct (float_of_pos_finite p Hb) as [m [e ->]].
  rewrite fdiv_self. vm_compute. reflexivity.
Qed.

(** X15.  A run that ends normally has at least one passing result, so the
    report divides by a total that is not zero: its success rate is the
    float of the division, never the integer [0] of the other branch, and
    it is exactly [100.0] when every check has passed. *)
Theorem success_rate_of_run (df : DataFrame) (rs : list CheckResult)
    (w : World) (filepath ext : string) :
  evaluate df = inr rs ->
  0 < rep_successful (build_report w filepath ext df rs)
    <= rep_total (build_report w filepath ext df rs)
  /\ (exists f,
        rep_success_rate (build_report w filepath ext df rs) = Float f)
  /\ (Forall (fun r => success r = true) rs ->
      Z.of_nat (List.length rs) < 2 ^ 1023 ->
      rep_success_rate (build_report w filepath ext df rs) = Float hundred).
Proof.
  intros He. destruct (run_has_passing_result df rs He) as [H3 H1].
  pose proof (filter_length_le success rs) as Hle.
  unfold build_report.
  cbn [rep_successful rep_total rep_success_rate].
  replace (0 <? Z.of_nat (List.length rs)) with true
    by (symmetry; apply Z.ltb_lt; lia).
  split; [lia|]. split; [now eexists|].
  intros Hall Hb.
  assert (E : filter success rs = rs).
  { clear -Hall. induction Hall as [|r t Hr _ IH]; [reflexivity|].
    simpl. now rewrite Hr, IH. }
  rewrite E. f_equal. apply rate_of_all. lia.
Qed.

Lemma success_rate_of_run_witness :
  (0 < rep_successful (build_report sample_world "uploads/notes.csv" ".csv"
                         short_notes (results_of short_notes))
     <= rep_total (build_report sample_world "uploads/notes.csv" ".csv"
                     short_notes (results_of short_notes)))
  /\ rep_success_rate (build_report sample_world "uploads/notes.csv" ".csv"
                         short_notes (results_of short_notes))
     = Float hundred.
Proof.
  destruct (success_rate_of_run short_notes (results_of short_notes)
              sample_world "uploads/notes.csv" ".csv")
    as [H1 [_ H3]]; [vm_compute; reflexivity|].
  split; [exact H1|]. apply H3.
  - vm_compute. repeat constructor.
  - vm_compute. reflexivity.
Defined.
